(** * stattests: aggregation of A/B-test rows, linearization, estimators

    A shallow embedding of [stattests.py].  A pandas [DataFrame] is a
    mutable object: callers and callees share it by reference, so a data
    frame lives in a store and the functions of the module are state
    transformers over that store that may raise a Python exception.
    The estimators run over the state of the ambient logger instead. *)

From Stdlib Require Import ZArith Uint63 PrimFloat.
From stdpp Require Import gmap strings list.

Local Open Scope Z_scope.
#[local] Set Warnings "-clear-no-such-hyp".

(** ** Exceptions and the state-and-exception monad *)

(** The subclasses of Python's [Exception] that the module can meet: the
    three raised by the interpreter on the module's own expressions, and
    whatever a routine of SciPy or statsmodels raises on its arguments. *)
Inductive exn : Type :=
| KeyError (key : string)
| IndexError
| ZeroDivisionError
| LibraryError (msg : string).

Definition M (S A : Type) : Type := S → (exn + A) * S.

Definition ret {S A} (a : A) : M S A := λ s, (inr a, s).
Definition raise {S A} (e : exn) : M S A := λ s, (inl e, s).
Definition bind {S A B} (m : M S A) (k : A → M S B) : M S B :=
  λ s, match m s with
       | (inr a, s') => k a s'
       | (inl e, s') => (inl e, s')
       end.

(** [try: body except Exception as e: handler e] *)
Definition try_except {S A} (body : M S A) (handler : exn → M S A) : M S A :=
  λ s, match body s with
       | (inr a, s') => (inr a, s')
       | (inl e, s') => handler e s'
       end.

(** A call into a library routine that touches no state of the module. *)
Definition call {S A} (r : exn + A) : M S A := λ s, (r, s).

#[global] Instance M_ret {S} : MRet (M S) := λ A, @ret S A.
#[global] Instance M_bind {S} : MBind (M S) := λ A B k m, @bind S A B m k.

(** ** Numbers

    The [num], [den] and [l_ratio] columns hold float64 values, the [n]
    column holds integers.  The float operations, builtin [sum], and the
    reductions of numpy and pandas are an interface: nothing below relies
    on an algebraic law of floating-point arithmetic. *)
Class Float64 (R : Type) := {
  of_int : Z → R;                  (* int -> float conversion *)
  fsub : R → R → R;
  fmul : R → R → R;
  fdiv : R → R → R;                (* IEEE division: total *)
  feqb : R → R → bool;             (* [==] *)
  np_sqrt : R → R;                 (* [np.sqrt] *)
  py_sum : list R → R;             (* builtin [sum] over a float Series *)
  np_sum : list R → R;             (* [np.sum] *)
  series_sum : list R → R;         (* [Series.sum()] *)
  series_var : list R → R          (* [Series.var()], ddof = 1 *)
}.

(** Builtin [sum] over an integer Series: iteration yields Python ints,
    so the sum is exact and the order of the additions is immaterial. *)
Definition py_sum_int (xs : list Z) : Z := foldr Z.add 0 xs.

(** ** Boolean masks over columns *)

(** [Series.unique()]: the distinct values in order of first appearance. *)
Fixpoint unique (xs : list string) : list string :=
  match xs with
  | [] => []
  | x :: xs' => x :: filter (λ y, y ≠ x) (unique xs')
  end.

(** [col == v] *)
Definition eq_mask (col : list string) (v : string) : list bool :=
  (λ x, bool_decide (x = v)) <$> col.

(** [col[mask]] *)
Fixpoint select {A} (mask : list bool) (xs : list A) : list A :=
  match mask, xs with
  | b :: mask', x :: xs' =>
      if b then x :: select mask' xs' else select mask' xs'
  | _, _ => []
  end.

(** [df.loc[mask, c] = vals] where [vals] carries the index of the masked
    rows: the masked positions of the column take the values in order.
    (A masked position without a value keeps its own; the module always
    assigns a Series selected by the same mask.) *)
Fixpoint loc_assign {A} (mask : list bool) (col vals : list A) : list A :=
  match mask, col with
  | b :: mask', c :: col' =>
      if b then
        match vals with
        | v :: vals' => v :: loc_assign mask' col' vals'
        | [] => c :: loc_assign mask' col' []
        end
      else c :: loc_assign mask' col' vals
  | _, _ => col
  end.

(** [seq[i]] on the array of distinct variants *)
Definition getitem {S} (us : list string) (i : nat) : M S string :=
  match us !! i with
  | Some v => ret v
  | None => raise IndexError
  end.

(** References to data frames in the store. *)
Abbreviation loc := nat (only parsing).

Section Stattests.
Context {R : Type} `{Float64 R}.

(** ** Data *)

Record EstimatorCriteriaValues := mkEstimatorCriteriaValues {
  pvalue : option R;
  statistic : option R
}.

Record Statistics := mkStatistics {
  mean_0 : R;
  mean_1 : R;
  var_0 : R;
  var_1 : R;
  n_0 : Z;
  n_1 : Z;
  num_0 : list R;
  num_1 : list R;
  den_0 : option (list R);
  den_1 : option (list R)
}.

(** A data frame by columns: the variant column [cfg.VARIANT_COL],
    ['num'], ['n'], and the columns that may be missing, ['den'] (needed
    by ratio metrics only) and the derived ['l_ratio']. *)
Record DataFrame := mkDataFrame {
  col_variant : list string;
  col_num : list R;
  col_den : option (list R);
  col_n : list Z;
  col_l_ratio : option (list R)
}.

(** All columns of a frame have one length. *)
Definition df_wf (d : DataFrame) : Prop :=
  length (col_num d) = length (col_variant d) ∧
  length (col_n d) = length (col_variant d) ∧
  from_option (λ dn, length dn = length (col_variant d)) True (col_den d) ∧
  from_option (λ lr, length lr = length (col_variant d)) True (col_l_ratio d).

Definition with_l_ratio (d : DataFrame) (lr : list R) : DataFrame :=
  mkDataFrame (col_variant d) (col_num d) (col_den d) (col_n d) (Some lr).

(** The store: references to data frames.  A reference held by the
    program points to a frame; [read] has its error case for totality. *)
Local Abbreviation heap := (gmap loc DataFrame).

Definition read (df : loc) : M heap DataFrame :=
  λ h, match h !! df with
       | Some d => (inr d, h)
       | None => (inl (KeyError "df"), h)
       end.

Definition write (df : loc) (d : DataFrame) : M heap unit :=
  λ h, (inr tt, <[df := d]> h).

(** [df['den']], [df['l_ratio']] *)
Definition get_den (df : loc) : M heap (list R) :=
  d ← read df;
  match col_den d with
  | Some dn => ret dn
  | None => raise (KeyError "den")
  end.

Definition get_l_ratio (df : loc) : M heap (list R) :=
  d ← read df;
  match col_l_ratio d with
  | Some lr => ret lr
  | None => raise (KeyError "l_ratio")
  end.

(** [df[cfg.VARIANT_COL] == v] *)
Definition variant_mask (df : loc) (v : string) : M heap (list bool) :=
  d ← read df; ret (eq_mask (col_variant d) v).

(** [df['l_ratio'] = 0]: the column is created, or overwritten, in the
    frame that [df] refers to. *)
Definition set_l_ratio_zero (df : loc) : M heap unit :=
  d ← read df;
  write df (with_l_ratio d (replicate (length (col_variant d)) (of_int 0))).

(** [df.loc[mask, 'l_ratio'] = vals] *)
Definition loc_assign_l_ratio (df : loc) (mask : list bool) (vals : list R)
  : M heap unit :=
  lr ← get_l_ratio df;
  d ← read df;
  write df (with_l_ratio d (loc_assign mask lr vals)).

(** [(df['den'] == df['n']).all()] *)
Definition den_eq_n_all (dn : list R) (ns : list Z) : bool :=
  forallb id (zip_with (λ x m, feqb x (of_int m)) dn ns).

(** Python's [x / y] on floats *)
Definition truediv {S} (x y : R) : M S R :=
  if feqb y (of_int 0) then raise ZeroDivisionError else ret (fdiv x y).

(** Python's [x / n] for a float and an int *)
Definition truediv_int {S} (x : R) (n : Z) : M S R :=
  if n =? 0 then raise ZeroDivisionError else ret (fdiv x (of_int n)).

(** ** Linearization *)

Definition Linearization (num_0 den_0 num_1 den_1 : list R)
  : list R * list R :=
  let k := fdiv (np_sum num_0) (np_sum den_0) in
  let l_0 := zip_with (λ x y, fsub x (fmul k y)) num_0 den_0 in
  let l_1 := zip_with (λ x y, fsub x (fmul k y)) num_1 den_1 in
  (l_0, l_1).

Definition calculate_linearization (df : loc) : M heap loc :=
  d ← read df;
  let _variants := unique (col_variant d) in
  set_l_ratio_zero df;;
  dn ← get_den df;
  if den_eq_n_all dn (col_n d) then
    v0 ← getitem _variants 0;
    m0 ← variant_mask df v0;
    loc_assign_l_ratio df m0 (select m0 (col_num d));;
    v1 ← getitem _variants 1;
    m1 ← variant_mask df v1;
    loc_assign_l_ratio df m1 (select m1 (col_num d));;
    ret df
  else
    v0 ← getitem _variants 0;
    m0 ← variant_mask df v0;
    v1 ← getitem _variants 1;
    m1 ← variant_mask df v1;
    let '(l_0, l_1) :=
      Linearization (select m0 (col_num d)) (select m0 dn)
                    (select m1 (col_num d)) (select m1 dn) in
    loc_assign_l_ratio df m0 l_0;;
    loc_assign_l_ratio df m1 l_1;;
    ret df.

(** ** Metric aggregators *)

Definition BaseStatsRatio (df : loc) : M heap Statistics :=
  d ← read df;
  let _unique_variants := unique (col_variant d) in
  df ← calculate_linearization df;
  d ← read df;
  v0 ← getitem _unique_variants 0;
  m0 ← variant_mask df v0;
  let n_0 := py_sum_int (select m0 (col_n d)) in
  v1 ← getitem _unique_variants 1;
  m1 ← variant_mask df v1;
  let n_1 := py_sum_int (select m1 (col_n d)) in
  dn ← get_den df;
  mean_0 ← truediv (py_sum (select m0 (col_num d))) (py_sum (select m0 dn));
  mean_1 ← truediv (py_sum (select m1 (col_num d))) (py_sum (select m1 dn));
  lr ← get_l_ratio df;
  let var_0 := series_var (select m0 lr) in
  let var_1 := series_var (select m1 lr) in
  let num_0 := select m0 (col_num d) in
  let den_0 := select m0 dn in
  let num_1 := select m1 (col_num d) in
  let den_1 := select m1 dn in
  ret (mkStatistics mean_0 mean_1 var_0 var_1 n_0 n_1 num_0 num_1
         (Some den_0) (Some den_1)).

Definition BaseStatsUserLevel (df : loc) : M heap Statistics :=
  d ← read df;
  let _unique_variants := unique (col_variant d) in
  v0 ← getitem _unique_variants 0;
  m0 ← variant_mask df v0;
  let n_0 := py_sum_int (select m0 (col_n d)) in
  v1 ← getitem _unique_variants 1;
  m1 ← variant_mask df v1;
  let n_1 := py_sum_int (select m1 (col_n d)) in
  let mean_0 := py_sum (select m0 (col_num d)) in
  let mean_1 := py_sum (select m1 (col_num d)) in
  let var_0 := series_var (select m0 (col_num d)) in
  let var_1 := series_var (select m1 (col_num d)) in
  let num_0 := select m0 (col_num d) in
  let num_1 := select m1 (col_num d) in
  ret (mkStatistics mean_0 mean_1 var_0 var_1 n_0 n_1 num_0 num_1
         None None).

Definition BaseStatsBernoulli (df : loc) : M heap Statistics :=
  d ← read df;
  let _unique_variants := unique (col_variant d) in
  v0 ← getitem _unique_variants 0;
  m0 ← variant_mask df v0;
  let n_0 := py_sum_int (select m0 (col_n d)) in
  v1 ← getitem _unique_variants 1;
  m1 ← variant_mask df v1;
  let n_1 := py_sum_int (select m1 (col_n d)) in
  mean_0 ← truediv_int (py_sum (select m0 (col_num d))) n_0;
  mean_1 ← truediv_int (py_sum (select m1 (col_num d))) n_1;
  let var_0 := series_var (select m0 (col_num d)) in
  let var_1 := series_var (select m1 (col_num d)) in
  let num_0 := select m0 (col_num d) in
  let num_1 := select m1 (col_num d) in
  ret (mkStatistics mean_0 mean_1 var_0 var_1 n_0 n_1 num_0 num_1
         None None).

(** ** Dispatch on the metric-type label *)

Definition mappings : gmap string (loc → M heap Statistics) :=
  <["ratio" := BaseStatsRatio]>
    (<["bernoulli" := BaseStatsBernoulli]>
       (<["user-level" := BaseStatsUserLevel]> ∅)).

Definition calculate_statistics (df : loc) (type : string)
  : M heap Statistics :=
  match mappings !! type with
  | Some calculate_method => calculate_method df
  | None => raise (KeyError type)
  end.

(** ** Estimators

    The three hypothesis tests are routines of SciPy and statsmodels:
    each either returns a [(statistic, pvalue)] pair or raises.  The
    estimators run over the records of the ambient logger
    [cfg.logger], one entry for each [error] call. *)
Section Estimators.
Variable ttest_ind_from_stats : R → R → Z → R → R → Z → exn + (R * R).
Variable mannwhitneyu : list R → list R → exn + (R * R).
Variable proportions_ztest : list R → list Z → exn + (R * R).

Definition logger := list exn.

Definition logger_error (e : exn) : M logger unit :=
  λ log, (inr tt, log ++ [e]).

(** The [except] clause shared by the three estimators. *)
Definition on_exception (e : exn) : M logger (option R * option R) :=
  logger_error e;; ret (None, None).

Definition TTestFromStats (stat : Statistics)
  : M logger EstimatorCriteriaValues :=
  '(statistic, pvalue) ←
    try_except
      ('(statistic, pvalue) ←
         call (ttest_ind_from_stats
                 (mean_0 stat) (np_sqrt (var_0 stat)) (n_0 stat)
                 (mean_1 stat) (np_sqrt (var_1 stat)) (n_1 stat));
       ret (Some statistic, Some pvalue))
      on_exception;
  ret (mkEstimatorCriteriaValues pvalue statistic).

Definition MannWhitney (stat : Statistics)
  : M logger EstimatorCriteriaValues :=
  '(statistic, pvalue) ←
    try_except
      ('(statistic, pvalue) ←
         call (mannwhitneyu (num_0 stat) (num_1 stat));
       ret (Some statistic, Some pvalue))
      on_exception;
  ret (mkEstimatorCriteriaValues pvalue statistic).

Definition ProportionsZtest (stat : Statistics)
  : M logger EstimatorCriteriaValues :=
  '(statistic, pvalue) ←
    try_except
      ('(statistic, pvalue) ←
         call (proportions_ztest
                 [series_sum (num_0 stat); series_sum (num_1 stat)]
                 [n_0 stat; n_1 stat]);
       ret (Some statistic, Some pvalue))
      on_exception;
  ret (mkEstimatorCriteriaValues pvalue statistic).

(** What the policy of soft failure makes of the outcome of a library
    routine, for a logger that held [log]: a result is returned in both
    cases, with its two fields unset and the exception logged when the
    routine raised, and set to the routine's pair otherwise. *)
Definition unset (res : EstimatorCriteriaValues) : Prop :=
  pvalue res = None ∧ statistic res = None.

Definition both_set (res : EstimatorCriteriaValues) : Prop :=
  is_Some (pvalue res) ∧ is_Some (statistic res).

Definition soft_failure (outcome : exn + R * R) (log : logger)
    (run : (exn + EstimatorCriteriaValues) * logger) : Prop :=
  ∃ res log',
    run = (inr res, log') ∧ (unset res ∨ both_set res) ∧
    match outcome with
    | inl e => unset res ∧ log' = log ++ [e]
    | inr (s, p) => statistic res = Some s ∧ pvalue res = Some p ∧ log' = log
    end.
End Estimators.

(** ** The three metric types *)

Inductive metric : Type := Ratio | Bernoulli | UserLevel.

Definition label (m : metric) : string :=
  match m with
  | Ratio => "ratio"
  | Bernoulli => "bernoulli"
  | UserLevel => "user-level"
  end.

Definition aggregator (m : metric) : loc → M heap Statistics :=
  match m with
  | Ratio => BaseStatsRatio
  | Bernoulli => BaseStatsBernoulli
  | UserLevel => BaseStatsUserLevel
  end.

(** What the divisions of an aggregator need on a frame with the two
    variants [v0] and [v1]: the ['den'] column and nonzero denominator
    sums for a ratio metric, nonzero unit counts for a Bernoulli one. *)
Definition divisions_defined (m : metric) (d : DataFrame) (v0 v1 : string)
  : Prop :=
  let m0 := eq_mask (col_variant d) v0 in
  let m1 := eq_mask (col_variant d) v1 in
  match m with
  | Ratio =>
      match col_den d with
      | Some dn =>
          feqb (py_sum (select m0 dn)) (of_int 0) = false ∧
          feqb (py_sum (select m1 dn)) (of_int 0) = false
      | None => False
      end
  | Bernoulli =>
      py_sum_int (select m0 (col_n d)) ≠ 0 ∧
      py_sum_int (select m1 (col_n d)) ≠ 0
  | UserLevel => True
  end.

(** The pooled ratio of a frame against the control label [v0], and the
    linearized column it gives. *)
Definition pooled_ratio (d : DataFrame) (dn : list R) (v0 : string) : R :=
  fdiv (np_sum (select (eq_mask (col_variant d) v0) (col_num d)))
       (np_sum (select (eq_mask (col_variant d) v0) dn)).

Definition linearize (k : R) (nums dens : list R) : list R :=
  zip_with (λ x y, fsub x (fmul k y)) nums dens.

End Stattests.

Arguments EstimatorCriteriaValues : clear implicits.
Arguments Statistics : clear implicits.
Arguments DataFrame : clear implicits.

Abbreviation heap R := (gmap loc (DataFrame R)) (only parsing).

(** ** The float64 instance

    IEEE 754 binary64 through the primitive floats, for the frames of
    the scenarios: small integer values, no NaN among the data, unit
    counts far below [2^63].  The reductions are taken left to right
    from zero and skip nothing; numpy and pandas associate a long sum
    differently and their Series reductions skip NaN, which these
    frames do not meet.  The general theorems do not depend on this
    instance. *)
Module Binary64.
Definition b64_of_int (z : Z) : float :=
  if z <? 0 then PrimFloat.opp (PrimFloat.of_uint63 (Uint63.of_Z (- z)))
  else PrimFloat.of_uint63 (Uint63.of_Z z).

Definition b64_sum (xs : list float) : float :=
  fold_left PrimFloat.add xs (b64_of_int 0).

(** Sample variance in two passes, NaN below two observations. *)
Definition b64_var (xs : list float) : float :=
  let count := Z.of_nat (length xs) in
  let avg := PrimFloat.div (b64_sum xs) (b64_of_int count) in
  let sqr := b64_sum ((λ x, let e := PrimFloat.sub avg x in
                            PrimFloat.mul e e) <$> xs) in
  if count <=? 1 then PrimFloat.nan
  else PrimFloat.div sqr (b64_of_int (count - 1)).

#[global] Instance b64 : Float64 float := {|
  of_int := b64_of_int;
  fsub := PrimFloat.sub;
  fmul := PrimFloat.mul;
  fdiv := PrimFloat.div;
  feqb := PrimFloat.eqb;
  np_sqrt := PrimFloat.sqrt;
  py_sum := b64_sum;
  np_sum := b64_sum;
  series_sum := b64_sum;
  series_var := b64_var
|}.
End Binary64.

(** ** Scenarios of the specification *)
Module Scenario.
Import Binary64.

Definition f (z : Z) : float := b64_of_int z.

(** Scenario C: three rows [(num=10, den=5, n=1)] of variant [A], then
    three rows [(num=20, den=5, n=1)] of variant [B]. *)
Definition scenario_C : DataFrame float :=
  mkDataFrame ["A"; "A"; "A"; "B"; "B"; "B"]%string
    (f <$> [10; 10; 10; 20; 20; 20])
    (Some (f <$> [5; 5; 5; 5; 5; 5]))
    [1; 1; 1; 1; 1; 1]
    None.

(** Scenario A: the values 1, 2, 3 for variant [A] and 4, 5, 6 for
    variant [B], one unit per row. *)
Definition scenario_A : DataFrame float :=
  mkDataFrame ["A"; "A"; "A"; "B"; "B"; "B"]%string
    (f <$> [1; 2; 3; 4; 5; 6]) None [1; 1; 1; 1; 1; 1] None.

(** Two frames with the same rows but for the unit counts: in the first
    every row has [den == n], in the second the last row has not. *)
Definition frame_den_is_n : DataFrame float :=
  mkDataFrame ["A"; "A"; "B"]%string
    (f <$> [3; 4; 5]) (Some (f <$> [1; 1; 2])) [1; 1; 2] None.

Definition frame_den_not_n : DataFrame float :=
  mkDataFrame ["A"; "A"; "B"]%string
    (f <$> [3; 4; 5]) (Some (f <$> [1; 1; 2])) [1; 1; 1] None.

(** Rows aggregated beforehand: the two rows of [A] stand for two units
    and for none. *)
Definition frame_aggregated : DataFrame float :=
  mkDataFrame ["A"; "A"; "B"; "B"]%string
    (f <$> [1; 0; 1; 1]) None [2; 0; 1; 1] None.

(** A t-test routine that raises nothing: it returns NaN for both the
    statistic and the p-value, as floating-point arithmetic does where
    the degrees of freedom [nobs1 + nobs2 - 2] are zero and the pooled
    variance is [0/0]. *)
Definition ttest_nan (mean1 std1 : float) (nobs1 : Z)
    (mean2 std2 : float) (nobs2 : Z) : exn + (float * float) :=
  inr (PrimFloat.nan, PrimFloat.nan).

(** A t-test routine that rejects samples of fewer than two units. *)
Definition ttest_strict (mean1 std1 : float) (nobs1 : Z)
    (mean2 std2 : float) (nobs2 : Z) : exn + (float * float) :=
  if (nobs1 <? 2) || (nobs2 <? 2)
  then inl (LibraryError "insufficient sample")
  else inr (PrimFloat.nan, PrimFloat.nan).

(** A rank test standing for [mannwhitneyu]: it rejects an empty sample
    and otherwise reports numbers computed from the two samples alone. *)
Definition rank_test (xs ys : list float) : exn + (float * float) :=
  match xs, ys with
  | [], _ | _, [] => inl (LibraryError "empty sample")
  | _, _ => inr (b64_sum xs, b64_sum ys)
  end.

(** Two records with the same samples and different moments. *)
Definition record_a : Statistics float :=
  mkStatistics (f 6) (f 15) (f 1) (f 1) 3 3
    (f <$> [1; 2; 3]) (f <$> [4; 5; 6]) None None.

Definition record_b : Statistics float :=
  mkStatistics (f 0) (f 0) (f 7) (f 9) 30 40
    (f <$> [1; 2; 3]) (f <$> [4; 5; 6])
    (Some (f <$> [1; 1; 1])) (Some (f <$> [2; 2; 2])).

(** One row per variant, one unit per row, and the record that the
    user-level aggregator returns on it: the sample variances are NaN. *)
Definition frame_two_rows : DataFrame float :=
  mkDataFrame ["A"; "B"]%string (f <$> [1; 2]) None [1; 1] None.

Definition record_single : Statistics float :=
  mkStatistics (f 1) (f 2) PrimFloat.nan PrimFloat.nan 1 1
    [f 1] [f 2] None None.

(** Frames at the edges of what the aggregators expect: one variant
    only; three variants; a variant whose unit counts sum to zero; a
    control variant whose denominators sum to zero. *)
Definition frame_one_variant : DataFrame float :=
  mkDataFrame ["A"; "A"]%string
    (f <$> [1; 2]) (Some (f <$> [1; 1])) [1; 1] None.

Definition frame_three_variants : DataFrame float :=
  mkDataFrame ["A"; "B"; "C"; "A"]%string
    (f <$> [2; 5; 6; 8]) (Some (f <$> [1; 2; 1; 4])) [1; 1; 1; 1] None.

Definition frame_no_units : DataFrame float :=
  mkDataFrame ["A"; "A"; "B"]%string
    (f <$> [1; 0; 1]) None [0; 0; 1] None.

Definition frame_zero_den : DataFrame float :=
  mkDataFrame ["A"; "B"]%string
    (f <$> [3; 4]) (Some (f <$> [0; 1])) [1; 1] None.

(** Scenario B: the outcomes 1, 0, 1, 0 for variant [A] and 1, 1, 1, 0
    for variant [B], one unit per row. *)
Definition scenario_B : DataFrame float :=
  mkDataFrame ["A"; "A"; "A"; "A"; "B"; "B"; "B"; "B"]%string
    (f <$> [1; 0; 1; 0; 1; 1; 1; 0]) None [1; 1; 1; 1; 1; 1; 1; 1] None.

(** A record with the moments of [record_a] and other samples, and one
    with the sample sums and unit counts of [record_a] and other
    moments. *)
Definition record_c : Statistics float :=
  mkStatistics (f 6) (f 15) (f 1) (f 1) 3 3
    (f <$> [9; 9]) [] (Some [f 1]) None.

Definition record_d : Statistics float :=
  mkStatistics (f 0) (f 1) (f 7) (f 9) 3 3
    (f <$> [3; 2; 1]) (f <$> [6; 5; 4]) None None.

(** A z-test standing for [proportions_ztest]: it rejects a group
    without trials and otherwise reports the two success counts. *)
Definition ztest (counts : list float) (nobs : list Z)
  : exn + (float * float) :=
  match counts, nobs with
  | [c0; c1], [n0; n1] =>
      if (n0 =? 0) || (n1 =? 0) then inl (LibraryError "no trials")
      else inr (c0, c1)
  | _, _ => inl (LibraryError "shape")
  end.
End Scenario.

(** * Properties *)

(** ** Lists, masks and [unique] *)

Lemma unique_elem (xs : list string) (x : string) : x ∈ unique xs ↔ x ∈ xs.
Proof.
  induction xs as [|y xs IH]; simpl; [done|].
  rewrite !elem_of_cons, list_elem_of_filter, IH.
  destruct (decide (x = y)); naive_solver.
Qed.

Lemma unique_NoDup (xs : list string) : NoDup (unique xs).
Proof.
  induction xs as [|y xs IH]; simpl; [constructor|].
  constructor; [|by apply NoDup_filter].
  rewrite list_elem_of_filter. naive_solver.
Qed.

Lemma unique_two (xs : list string) (v0 v1 : string) :
  unique xs = [v0; v1] → v0 ≠ v1 ∧ ∀ x, x ∈ xs → x = v0 ∨ x = v1.
Proof.
  intros Hu. split.
  - pose proof (unique_NoDup xs) as Hnd. rewrite Hu in Hnd.
    inversion_clear Hnd as [|? ? Hni _]. set_solver.
  - intros x Hx. apply unique_elem in Hx. rewrite Hu in Hx. set_solver.
Qed.

Lemma length_eq_mask (col : list string) (v : string) :
  length (eq_mask col v) = length col.
Proof. unfold eq_mask. by rewrite length_fmap. Qed.

Lemma length_loc_assign {A} (mask : list bool) (col vals : list A) :
  length (loc_assign mask col vals) = length col.
Proof.
  revert col vals. induction mask as [|b mask IH]; intros [|c col] vals;
    simpl; try done.
  destruct b; [destruct vals|]; simpl; by rewrite IH.
Qed.

Lemma select_zip_with {A B C} (g : A → B → C) (mask : list bool)
    (xs : list A) (ys : list B) :
  select mask (zip_with g xs ys) = zip_with g (select mask xs) (select mask ys).
Proof.
  revert xs ys. induction mask as [|b mask IH]; intros [|x xs] [|y ys];
    simpl; try done.
  - destruct b; [done|]. by destruct (select mask xs).
  - destruct b; simpl; by rewrite IH.
Qed.

(** Assigning the rows of the first variant and then those of the second
    from one full-length column rebuilds that column, when every row is
    of one of the two variants. *)
Lemma loc_assign_two_variants {A} (vs : list string) (v0 v1 : string)
    (old new : list A) :
  length old = length vs → length new = length vs →
  (∀ x, x ∈ vs → x = v0 ∨ x = v1) →
  loc_assign (eq_mask vs v1)
    (loc_assign (eq_mask vs v0) old (select (eq_mask vs v0) new))
    (select (eq_mask vs v1) new) = new.
Proof.
  revert old new. induction vs as [|v vs IH]; intros [|c old] [|x new];
    simpl; try done.
  intros [= Ho] [= Hn] Hvs.
  assert (IH' := IH old new Ho Hn (λ y Hy, Hvs y (list_elem_of_further _ _ _ Hy))).
  destruct (Hvs v) as [->| ->]; [left|..].
  - rewrite bool_decide_eq_true_2 by done. simpl.
    case_bool_decide; simpl; by rewrite IH'.
  - rewrite (bool_decide_eq_true_2 (v1 = v1)) by done.
    case_bool_decide; simpl; by rewrite IH'.
Qed.

Section Properties.
Context {R : Type} `{Float64 R}.

Ltac run :=
  unfold mbind, mret, M_bind, M_ret, bind, ret, raise, call, read, write;
  simpl.

Lemma calculate_linearization_run (h : heap R) (r : loc) (d : DataFrame R)
    (dn : list R) (v0 v1 : string) :
  h !! r = Some d → df_wf d → col_den d = Some dn →
  unique (col_variant d) = [v0; v1] →
  calculate_linearization r h =
    (inr r,
     <[r := with_l_ratio d
              (if den_eq_n_all dn (col_n d) then col_num d
               else linearize (pooled_ratio d dn v0) (col_num d) dn)]> h).
Proof.
  intros Hr (Hnum & Hn & Hden & _) Hdn Hu.
  destruct (unique_two _ _ _ Hu) as [Hne Hvs].
  rewrite Hdn in Hden. simpl in Hden.
  unfold calculate_linearization, set_l_ratio_zero, get_den, variant_mask,
    loc_assign_l_ratio, get_l_ratio, getitem.
  run.
  repeat first [rewrite Hr | rewrite lookup_insert_eq | rewrite Hdn
               | rewrite Hu | progress simpl].
  destruct (den_eq_n_all dn (col_n d)) eqn:Hall; simpl;
    repeat first [rewrite Hr | rewrite lookup_insert_eq | rewrite Hdn
                 | rewrite Hu | progress simpl];
    rewrite !insert_insert_eq; unfold with_l_ratio; simpl;
    do 4 f_equal.
  - apply loc_assign_two_variants; by rewrite ?length_replicate.
  - rewrite <- !select_zip_with.
    apply loc_assign_two_variants; [by rewrite length_replicate| |done].
    unfold linearize. rewrite length_zip_with. lia.
Qed.

Lemma BaseStatsUserLevel_inv (h h' : heap R) (r : loc) (st : Statistics R) :
  BaseStatsUserLevel r h = (inr st, h') →
  ∃ d v0 v1,
    h !! r = Some d ∧ unique (col_variant d) !! 0%nat = Some v0 ∧
    unique (col_variant d) !! 1%nat = Some v1 ∧ h' = h ∧
    let m0 := eq_mask (col_variant d) v0 in
    let m1 := eq_mask (col_variant d) v1 in
    st = mkStatistics
           (py_sum (select m0 (col_num d))) (py_sum (select m1 (col_num d)))
           (series_var (select m0 (col_num d)))
           (series_var (select m1 (col_num d)))
           (py_sum_int (select m0 (col_n d))) (py_sum_int (select m1 (col_n d)))
           (select m0 (col_num d)) (select m1 (col_num d)) None None.
Proof.
  unfold BaseStatsUserLevel, variant_mask, getitem. run. intros Hrun.
  repeat (case_match; simplify_eq/=). eauto 10.
Qed.

Lemma BaseStatsRatio_inv (h h' : heap R) (r : loc) (st : Statistics R) :
  BaseStatsRatio r h = (inr st, h') →
  ∃ d dn v0 v1 lr,
    h !! r = Some d ∧ col_den d = Some dn ∧
    unique (col_variant d) !! 0%nat = Some v0 ∧
    unique (col_variant d) !! 1%nat = Some v1 ∧
    h' = <[r := with_l_ratio d lr]> h ∧
    let m0 := eq_mask (col_variant d) v0 in
    let m1 := eq_mask (col_variant d) v1 in
    st = mkStatistics
           (fdiv (py_sum (select m0 (col_num d))) (py_sum (select m0 dn)))
           (fdiv (py_sum (select m1 (col_num d))) (py_sum (select m1 dn)))
           (series_var (select m0 lr)) (series_var (select m1 lr))
           (py_sum_int (select m0 (col_n d))) (py_sum_int (select m1 (col_n d)))
           (select m0 (col_num d)) (select m1 (col_num d))
           (Some (select m0 dn)) (Some (select m1 dn)).
Proof.
  unfold BaseStatsRatio, calculate_linearization, set_l_ratio_zero, get_den,
    variant_mask, loc_assign_l_ratio, get_l_ratio, getitem, truediv.
  run. intros Hrun.
  repeat (case_match; simplify_map_eq/=);
    rewrite !insert_insert_eq; unfold with_l_ratio; simpl;
    eexists _, _, _, _, _; repeat split; eauto.
Qed.

Lemma BaseStatsBernoulli_inv (h h' : heap R) (r : loc) (st : Statistics R) :
  BaseStatsBernoulli r h = (inr st, h') →
  ∃ d v0 v1,
    h !! r = Some d ∧ unique (col_variant d) !! 0%nat = Some v0 ∧
    unique (col_variant d) !! 1%nat = Some v1 ∧ h' = h ∧
    let m0 := eq_mask (col_variant d) v0 in
    let m1 := eq_mask (col_variant d) v1 in
    st = mkStatistics
           (fdiv (py_sum (select m0 (col_num d)))
                 (of_int (py_sum_int (select m0 (col_n d)))))
           (fdiv (py_sum (select m1 (col_num d)))
                 (of_int (py_sum_int (select m1 (col_n d)))))
           (series_var (select m0 (col_num d)))
           (series_var (select m1 (col_num d)))
           (py_sum_int (select m0 (col_n d))) (py_sum_int (select m1 (col_n d)))
           (select m0 (col_num d)) (select m1 (col_num d)) None None.
Proof.
  unfold BaseStatsBernoulli, variant_mask, getitem, truediv_int. run.
  intros Hrun. repeat (case_match; simplify_eq/=). eauto 10.
Qed.

(** The two aggregators that only read leave the store as it was, also
    when they raise. *)
Lemma BaseStatsUserLevel_frame (h h' : heap R) (r : loc)
    (res : exn + Statistics R) :
  BaseStatsUserLevel r h = (res, h') → h' = h.
Proof.
  unfold BaseStatsUserLevel, variant_mask, getitem. run. intros Hrun.
  by repeat (case_match; simplify_eq/=).
Qed.

Lemma BaseStatsBernoulli_frame (h h' : heap R) (r : loc)
    (res : exn + Statistics R) :
  BaseStatsBernoulli r h = (res, h') → h' = h.
Proof.
  unfold BaseStatsBernoulli, variant_mask, getitem, truediv_int. run.
  intros Hrun. by repeat (case_match; simplify_eq/=).
Qed.

(** The aggregators return on a frame of two variants, given what their
    divisions need. *)
Lemma BaseStatsUserLevel_run (h : heap R) (r : loc) (d : DataFrame R)
    (v0 v1 : string) :
  h !! r = Some d →
  unique (col_variant d) !! 0%nat = Some v0 →
  unique (col_variant d) !! 1%nat = Some v1 →
  ∃ st, BaseStatsUserLevel r h = (inr st, h).
Proof.
  intros Hr H0 H1. unfold BaseStatsUserLevel, variant_mask, getitem. run.
  rewrite Hr. simpl. rewrite H0, H1. simpl. rewrite Hr. simpl.
  rewrite Hr. simpl. eauto.
Qed.

Lemma BaseStatsBernoulli_run (h : heap R) (r : loc) (d : DataFrame R)
    (v0 v1 : string) :
  h !! r = Some d →
  unique (col_variant d) !! 0%nat = Some v0 →
  unique (col_variant d) !! 1%nat = Some v1 →
  py_sum_int (select (eq_mask (col_variant d) v0) (col_n d)) ≠ 0 →
  py_sum_int (select (eq_mask (col_variant d) v1) (col_n d)) ≠ 0 →
  ∃ st, BaseStatsBernoulli r h = (inr st, h).
Proof.
  intros Hr H0 H1 Hn0 Hn1.
  unfold BaseStatsBernoulli, variant_mask, getitem, truediv_int. run.
  rewrite Hr. simpl. rewrite H0, H1. simpl. rewrite Hr. simpl.
  rewrite Hr. simpl.
  apply Z.eqb_neq in Hn0, Hn1. rewrite Hn0, Hn1. simpl. eauto.
Qed.

Lemma BaseStatsRatio_run (h : heap R) (r : loc) (d : DataFrame R)
    (dn : list R) (v0 v1 : string) :
  h !! r = Some d → df_wf d → col_den d = Some dn →
  unique (col_variant d) = [v0; v1] →
  feqb (py_sum (select (eq_mask (col_variant d) v0) dn)) (of_int 0) = false →
  feqb (py_sum (select (eq_mask (col_variant d) v1) dn)) (of_int 0) = false →
  let m0 := eq_mask (col_variant d) v0 in
  let m1 := eq_mask (col_variant d) v1 in
  let lr := if den_eq_n_all dn (col_n d) then col_num d
            else linearize (pooled_ratio d dn v0) (col_num d) dn in
  BaseStatsRatio r h =
    (inr (mkStatistics
           (fdiv (py_sum (select m0 (col_num d))) (py_sum (select m0 dn)))
           (fdiv (py_sum (select m1 (col_num d))) (py_sum (select m1 dn)))
           (series_var (select m0 lr)) (series_var (select m1 lr))
           (py_sum_int (select m0 (col_n d))) (py_sum_int (select m1 (col_n d)))
           (select m0 (col_num d)) (select m1 (col_num d))
           (Some (select m0 dn)) (Some (select m1 dn))),
     <[r := with_l_ratio d lr]> h).
Proof.
  intros Hr Hwf Hdn Hu Hd0 Hd1 m0 m1 lr.
  unfold BaseStatsRatio.
  unfold mbind, M_bind. unfold bind at 1. unfold read at 1.
  rewrite Hr. unfold bind at 1.
  rewrite (calculate_linearization_run h r d dn v0 v1 Hr Hwf Hdn Hu).
  fold lr. unfold get_den, get_l_ratio, variant_mask, getitem, truediv. run.
  repeat first [rewrite lookup_insert_eq | rewrite Hdn | rewrite Hu
               | rewrite Hd0 | rewrite Hd1 | progress simpl].
  done.
Qed.

End Properties.

Import Binary64 Scenario.

(** The embedding on Scenario A: the user-level aggregator gives the
    means 6 and 15 and the unit counts 3 and 3, and leaves the store. *)
Example scenario_A_user_level :
  ∃ st : Statistics float,
    BaseStatsUserLevel 0%nat {[ 0%nat := scenario_A ]}
      = (inr st, {[ 0%nat := scenario_A ]}) ∧
    mean_0 st = 6%float ∧ mean_1 st = 15%float ∧ n_0 st = 3 ∧ n_1 st = 3 ∧
    var_0 st = 1%float ∧ var_1 st = 1%float.
Proof. eexists. split; [vm_compute; reflexivity|]. by repeat split. Qed.

(** * The linearization of ratio metrics *)

(** C1: on a frame of two variants where some row has [den != n],
    [calculate_linearization] takes the pooled ratio
    [k = np.sum(num_0) / np.sum(den_0)] from the rows of the variant met
    first alone, and leaves in the frame the column [l_ratio] whose rows
    of variant 0 are [num_0[i] - k * den_0[i]] and whose rows of variant 1
    are [num_1[i] - k * den_1[i]], the two Series that [Linearization]
    returns.  On Scenario C, in binary64, [k] is 2 and every value of
    [l_0] is 0. *)
Theorem C1_linearization_uses_control_ratio :
  (∀ (R : Type) (F : Float64 R) (h : heap R) (r : loc) (d : DataFrame R)
     (dn : list R) (v0 v1 : string),
     h !! r = Some d → df_wf d → col_den d = Some dn →
     unique (col_variant d) = [v0; v1] →
     den_eq_n_all dn (col_n d) = false →
     let m0 := eq_mask (col_variant d) v0 in
     let m1 := eq_mask (col_variant d) v1 in
     let num_0 := select m0 (col_num d) in
     let den_0 := select m0 dn in
     let num_1 := select m1 (col_num d) in
     let den_1 := select m1 dn in
     let k := fdiv (np_sum num_0) (np_sum den_0) in
     let l_0 := zip_with (λ x y, fsub x (fmul k y)) num_0 den_0 in
     let l_1 := zip_with (λ x y, fsub x (fmul k y)) num_1 den_1 in
     ∃ lr : list R,
       calculate_linearization r h = (inr r, <[r := with_l_ratio d lr]> h) ∧
       Linearization num_0 den_0 num_1 den_1 = (l_0, l_1) ∧
       select m0 lr = l_0 ∧ select m1 lr = l_1) ∧
  (let h : heap float := {[ 0%nat := scenario_C ]} in
   let num_0 := f <$> [10; 10; 10] in
   let den_0 := f <$> [5; 5; 5] in
   let num_1 := f <$> [20; 20; 20] in
   let den_1 := f <$> [5; 5; 5] in
   den_eq_n_all (f <$> [5; 5; 5; 5; 5; 5]) (col_n scenario_C) = false ∧
   fdiv (np_sum num_0) (np_sum den_0) = 2%float ∧
   Linearization num_0 den_0 num_1 den_1
     = ([0%float; 0%float; 0%float], [10%float; 10%float; 10%float]) ∧
   calculate_linearization 0%nat h
     = (inr 0%nat,
        <[0%nat := with_l_ratio scenario_C (f <$> [0; 0; 0; 10; 10; 10])]> h)).
Proof.
  split.
  - intros R F h r d dn v0 v1 Hr Hwf Hdn Hu Hall m0 m1 num_0 den_0 num_1 den_1
      k l_0 l_1.
    exists (linearize (pooled_ratio d dn v0) (col_num d) dn).
    rewrite (calculate_linearization_run h r d dn v0 v1 Hr Hwf Hdn Hu), Hall.
    repeat split; unfold linearize; by rewrite select_zip_with.
  - repeat split; reflexivity.
Qed.

Lemma C1_witness :
  ∃ lr : list float,
    calculate_linearization 0%nat {[ 0%nat := frame_den_not_n ]}
      = (inr 0%nat,
         <[0%nat := with_l_ratio frame_den_not_n lr]>
           {[ 0%nat := frame_den_not_n ]}) ∧
    select (eq_mask (col_variant frame_den_not_n) "A") lr
      = [PrimFloat.sub 3 (PrimFloat.mul (PrimFloat.div 7 2) 1);
         PrimFloat.sub 4 (PrimFloat.mul (PrimFloat.div 7 2) 1)].
Proof.
  destruct (proj1 C1_linearization_uses_control_ratio float b64
              {[ 0%nat := frame_den_not_n ]} 0%nat frame_den_not_n
              (f <$> [1; 1; 2]) "A" "B")
    as (lr & Hrun & _ & Hl0 & _).
  - reflexivity.
  - vm_compute. tauto.
  - reflexivity.
  - reflexivity.
  - reflexivity.
  - exists lr. split; [exact Hrun | exact Hl0].
Defined.

(** C2: on a frame of two variants where every row has [den == n],
    [calculate_linearization] does not linearize: it leaves in the frame
    the column [l_ratio] equal to the column [num], row by row. *)
Theorem C2_skip_path_copies_num (R : Type) (F : Float64 R) (h : heap R)
    (r : loc) (d : DataFrame R) (dn : list R) (v0 v1 : string) :
  h !! r = Some d → df_wf d → col_den d = Some dn →
  unique (col_variant d) = [v0; v1] →
  den_eq_n_all dn (col_n d) = true →
  let m0 := eq_mask (col_variant d) v0 in
  let m1 := eq_mask (col_variant d) v1 in
  ∃ lr : list R,
    calculate_linearization r h = (inr r, <[r := with_l_ratio d lr]> h) ∧
    lr = col_num d ∧
    select m0 lr = select m0 (col_num d) ∧
    select m1 lr = select m1 (col_num d).
Proof.
  intros Hr Hwf Hdn Hu Hall m0 m1. exists (col_num d).
  rewrite (calculate_linearization_run h r d dn v0 v1 Hr Hwf Hdn Hu), Hall.
  done.
Qed.

Lemma C2_witness :
  calculate_linearization 0%nat {[ 0%nat := frame_den_is_n ]}
    = (inr 0%nat,
       <[0%nat := with_l_ratio frame_den_is_n (f <$> [3; 4; 5])]>
         {[ 0%nat := frame_den_is_n ]}).
Proof.
  destruct (C2_skip_path_copies_num float b64 {[ 0%nat := frame_den_is_n ]}
              0%nat frame_den_is_n (f <$> [1; 1; 2]) "A" "B")
    as (lr & Hrun & -> & _).
  - reflexivity.
  - vm_compute. tauto.
  - reflexivity.
  - reflexivity.
  - reflexivity.
  - exact Hrun.
Defined.

(** * The aggregators *)

(** C3: on a frame of two variants whose denominator sums are nonzero,
    the ratio aggregator returns a record that retains the [num] and
    [den] rows of each variant of the frame and whose means are
    [sum(num_i) / sum(den_i)] over these rows; the same means come out
    of any frame with the same variant, [num] and [den] columns,
    whatever its unit counts, which decide between linearizing and
    skipping. *)
Theorem C3_ratio_mean (R : Type) (F : Float64 R) (h : heap R) (r : loc)
    (d : DataFrame R) (dn : list R) (v0 v1 : string) :
  h !! r = Some d → df_wf d → col_den d = Some dn →
  unique (col_variant d) = [v0; v1] →
  let m0 := eq_mask (col_variant d) v0 in
  let m1 := eq_mask (col_variant d) v1 in
  feqb (py_sum (select m0 dn)) (of_int 0) = false →
  feqb (py_sum (select m1 dn)) (of_int 0) = false →
  ∃ (st : Statistics R) (h1 : heap R),
    BaseStatsRatio r h = (inr st, h1) ∧
    num_0 st = select m0 (col_num d) ∧ den_0 st = Some (select m0 dn) ∧
    num_1 st = select m1 (col_num d) ∧ den_1 st = Some (select m1 dn) ∧
    mean_0 st = fdiv (py_sum (select m0 (col_num d))) (py_sum (select m0 dn)) ∧
    mean_1 st = fdiv (py_sum (select m1 (col_num d))) (py_sum (select m1 dn)) ∧
    ∀ (h' : heap R) (r' : loc) (d' : DataFrame R),
      h' !! r' = Some d' → df_wf d' →
      col_variant d' = col_variant d → col_num d' = col_num d →
      col_den d' = col_den d →
      ∃ (st' : Statistics R) (h1' : heap R),
        BaseStatsRatio r' h' = (inr st', h1') ∧
        mean_0 st' = mean_0 st ∧ mean_1 st' = mean_1 st.
Proof.
  intros Hr Hwf Hdn Hu m0 m1 Hd0 Hd1.
  eexists _, _.
  rewrite (BaseStatsRatio_run h r d dn v0 v1 Hr Hwf Hdn Hu Hd0 Hd1). simpl.
  repeat split.
  intros h' r' d' Hr' Hwf' Hv Hnum Hden.
  assert (Hdn' : col_den d' = Some dn) by congruence.
  unfold m0, m1 in Hd0, Hd1. rewrite <- Hv in Hu, Hd0, Hd1.
  eexists _, _.
  rewrite (BaseStatsRatio_run h' r' d' dn v0 v1 Hr' Hwf' Hdn' Hu Hd0 Hd1).
  simpl. by rewrite Hv, Hnum.
Qed.

Lemma C3_witness :
  ∃ (st st' : Statistics float) (h1 h1' : heap float),
    den_eq_n_all (f <$> [1; 1; 2]) (col_n frame_den_is_n) = true ∧
    den_eq_n_all (f <$> [1; 1; 2]) (col_n frame_den_not_n) = false ∧
    BaseStatsRatio 0%nat {[ 0%nat := frame_den_is_n ]} = (inr st, h1) ∧
    BaseStatsRatio 0%nat {[ 0%nat := frame_den_not_n ]} = (inr st', h1') ∧
    num_0 st = f <$> [3; 4] ∧ den_0 st = Some (f <$> [1; 1]) ∧
    num_1 st = [f 5] ∧ den_1 st = Some [f 2] ∧
    mean_0 st = PrimFloat.div 7 2 ∧ mean_0 st' = mean_0 st ∧
    mean_1 st = PrimFloat.div 5 2 ∧ mean_1 st' = mean_1 st.
Proof.
  destruct (C3_ratio_mean float b64 {[ 0%nat := frame_den_is_n ]}
              0%nat frame_den_is_n (f <$> [1; 1; 2]) "A" "B")
    as (st & h1 & Hrun & Hn0 & Hden0 & Hn1 & Hden1 & Hm0 & Hm1 & Hind);
    [reflexivity | vm_compute; tauto | reflexivity | reflexivity
    | reflexivity | reflexivity |].
  destruct (Hind {[ 0%nat := frame_den_not_n ]} 0%nat frame_den_not_n)
    as (st' & h1' & Hrun' & Hm0' & Hm1');
    [reflexivity | vm_compute; tauto | reflexivity | reflexivity
    | reflexivity |].
  exists st, st', h1, h1'.
  split; [reflexivity|]. split; [reflexivity|].
  split; [exact Hrun|]. split; [exact Hrun'|].
  split; [exact Hn0|]. split; [exact Hden0|].
  split; [exact Hn1|]. split; [exact Hden1|].
  split; [exact Hm0|]. split; [exact Hm0'|].
  split; [exact Hm1 | exact Hm1'].
Defined.

(** * The estimators *)

Section EstimatorProperties.
Context {R : Type} `{Float64 R}.
Variable ttest_ind_from_stats : R → R → Z → R → R → Z → exn + (R * R).
Variable mannwhitneyu : list R → list R → exn + (R * R).
Variable proportions_ztest : list R → list Z → exn + (R * R).

Lemma TTestFromStats_run (stat : Statistics R) (log : logger) :
  TTestFromStats ttest_ind_from_stats stat log =
    match ttest_ind_from_stats
            (mean_0 stat) (np_sqrt (var_0 stat)) (n_0 stat)
            (mean_1 stat) (np_sqrt (var_1 stat)) (n_1 stat) with
    | inr (s, p) => (inr (mkEstimatorCriteriaValues (Some p) (Some s)), log)
    | inl e => (inr (mkEstimatorCriteriaValues None None), log ++ [e])
    end.
Proof.
  unfold TTestFromStats, try_except, on_exception, logger_error.
  unfold mbind, mret, M_bind, M_ret, bind, ret, call.
  by destruct (ttest_ind_from_stats _ _ _ _ _ _) as [e|[s p]].
Qed.

Lemma MannWhitney_run (stat : Statistics R) (log : logger) :
  MannWhitney mannwhitneyu stat log =
    match mannwhitneyu (num_0 stat) (num_1 stat) with
    | inr (s, p) => (inr (mkEstimatorCriteriaValues (Some p) (Some s)), log)
    | inl e => (inr (mkEstimatorCriteriaValues None None), log ++ [e])
    end.
Proof.
  unfold MannWhitney, try_except, on_exception, logger_error.
  unfold mbind, mret, M_bind, M_ret, bind, ret, call.
  by destruct (mannwhitneyu _ _) as [e|[s p]].
Qed.

Lemma ProportionsZtest_run (stat : Statistics R) (log : logger) :
  ProportionsZtest proportions_ztest stat log =
    match proportions_ztest
            [series_sum (num_0 stat); series_sum (num_1 stat)]
            [n_0 stat; n_1 stat] with
    | inr (s, p) => (inr (mkEstimatorCriteriaValues (Some p) (Some s)), log)
    | inl e => (inr (mkEstimatorCriteriaValues None None), log ++ [e])
    end.
Proof.
  unfold ProportionsZtest, try_except, on_exception, logger_error.
  unfold mbind, mret, M_bind, M_ret, bind, ret, call.
  by destruct (proportions_ztest _ _) as [e|[s p]].
Qed.

Lemma soft_failure_intro (outcome : exn + R * R) (log : logger) :
  soft_failure outcome log
    match outcome with
    | inr (s, p) => (inr (mkEstimatorCriteriaValues (Some p) (Some s)), log)
    | inl e => (inr (mkEstimatorCriteriaValues None None), log ++ [e])
    end.
Proof.
  destruct outcome as [e|[s p]]; eexists _, _; (split; [reflexivity|]);
    unfold unset, both_set; simpl; eauto 10.
Qed.

End EstimatorProperties.

(** C4: on every record each estimator returns a result, whatever its
    library routine does: when the routine raises, the exception is
    logged once and both fields of the result are unset; when it returns
    a pair, the fields are set to it and nothing is logged.  In either
    case the two fields are unset together or set together. *)
Theorem C4_estimators_fail_softly (R : Type) (F : Float64 R)
    (ttest_ind_from_stats : R → R → Z → R → R → Z → exn + (R * R))
    (mannwhitneyu : list R → list R → exn + (R * R))
    (proportions_ztest : list R → list Z → exn + (R * R))
    (stat : Statistics R) (log : logger) :
  soft_failure
    (ttest_ind_from_stats (mean_0 stat) (np_sqrt (var_0 stat)) (n_0 stat)
                          (mean_1 stat) (np_sqrt (var_1 stat)) (n_1 stat))
    log (TTestFromStats ttest_ind_from_stats stat log) ∧
  soft_failure
    (mannwhitneyu (num_0 stat) (num_1 stat))
    log (MannWhitney mannwhitneyu stat log) ∧
  soft_failure
    (proportions_ztest [series_sum (num_0 stat); series_sum (num_1 stat)]
                       [n_0 stat; n_1 stat])
    log (ProportionsZtest proportions_ztest stat log).
Proof.
  rewrite TTestFromStats_run, MannWhitney_run, ProportionsZtest_run.
  repeat split; apply soft_failure_intro.
Qed.

(** C10: the Mann-Whitney estimator reads the two [num] Series of a
    record only: on two records with the same [num_0] and [num_1] it
    returns the same result and logs the same, whatever the other fields
    are. *)
Theorem C10_mann_whitney_reads_num_only (R : Type) (F : Float64 R)
    (mannwhitneyu : list R → list R → exn + (R * R))
    (stat stat' : Statistics R) (log : logger) :
  num_0 stat = num_0 stat' → num_1 stat = num_1 stat' →
  MannWhitney mannwhitneyu stat log = MannWhitney mannwhitneyu stat' log.
Proof. intros H0 H1. by rewrite !MannWhitney_run, H0, H1. Qed.

Lemma C10_witness :
  MannWhitney rank_test record_a [] = MannWhitney rank_test record_b [] ∧
  mean_0 record_a ≠ mean_0 record_b ∧ n_0 record_a ≠ n_0 record_b ∧
  den_0 record_a ≠ den_0 record_b.
Proof.
  split.
  - apply (C10_mann_whitney_reads_num_only float b64 rank_test
             record_a record_b []); reflexivity.
  - repeat split; discriminate.
Defined.

(** C6, as amended: on a record with [n_0 = n_1 = 1] the t-test estimator
    returns what its routine [ttest_ind_from_stats] decides: if the
    routine raises there, both fields are unset and exactly that one
    error is logged; if the routine returns a pair, both fields are set
    to it and nothing is logged. *)
Theorem C6_single_units_follow_the_routine (R : Type) (F : Float64 R)
    (ttest_ind_from_stats : R → R → Z → R → R → Z → exn + (R * R))
    (stat : Statistics R) (log : logger) :
  n_0 stat = 1 → n_1 stat = 1 →
  match ttest_ind_from_stats (mean_0 stat) (np_sqrt (var_0 stat)) 1
                             (mean_1 stat) (np_sqrt (var_1 stat)) 1 with
  | inl e =>
      TTestFromStats ttest_ind_from_stats stat log
        = (inr (mkEstimatorCriteriaValues None None), log ++ [e])
  | inr (s, p) =>
      TTestFromStats ttest_ind_from_stats stat log
        = (inr (mkEstimatorCriteriaValues (Some p) (Some s)), log)
  end.
Proof.
  intros H0 H1. rewrite TTestFromStats_run, H0, H1.
  by destruct (ttest_ind_from_stats _ _ _ _ _ _) as [e|[s p]].
Qed.

Lemma C6_witness :
  TTestFromStats ttest_strict record_single []
    = (inr (mkEstimatorCriteriaValues None None),
       [LibraryError "insufficient sample"]).
Proof.
  exact (C6_single_units_follow_the_routine float b64 ttest_strict
           record_single [] eq_refl eq_refl).
Defined.

(** C6, as stated, fails for a routine that returns NaN instead of
    raising: the record has one unit per variant, both fields of the
    result are set, and nothing is logged. *)
Lemma C6_counterexample :
  BaseStatsUserLevel 0%nat {[ 0%nat := frame_two_rows ]}
    = (inr record_single, {[ 0%nat := frame_two_rows ]}) ∧
  n_0 record_single = 1 ∧ n_1 record_single = 1 ∧
  TTestFromStats ttest_nan record_single []
    = (inr (mkEstimatorCriteriaValues (Some PrimFloat.nan) (Some PrimFloat.nan)),
       []) ∧
  ¬ ∃ res log',
      TTestFromStats ttest_nan record_single [] = (inr res, log') ∧
      unset res ∧ length log' = 1%nat.
Proof.
  repeat split. intros (res & log' & Hrun & _ & Hlog).
  vm_compute in Hrun. by simplify_eq.
Qed.

(** * Dispatch *)

Lemma calculate_statistics_label {R : Type} `{Float64 R} (m : metric)
    (r : loc) :
  calculate_statistics r (label m) = aggregator m r.
Proof. by destruct m. Qed.

Lemma calculate_statistics_unknown {R : Type} `{Float64 R} (type : string)
    (r : loc) (h : heap R) :
  type ≠ "ratio" → type ≠ "bernoulli" → type ≠ "user-level" →
  mappings (R:=R) !! type = None ∧
  calculate_statistics r type h = (inl (KeyError type), h).
Proof.
  intros H1 H2 H3.
  assert (Hm : mappings (R:=R) !! type = None).
  { unfold mappings. by rewrite !lookup_insert_ne, lookup_empty. }
  split; [done|]. unfold calculate_statistics. by rewrite Hm.
Qed.

Lemma calculate_statistics_returns {R : Type} `{Float64 R} (type : string)
    (r : loc) (h h' : heap R) (st : Statistics R) :
  calculate_statistics r type h = (inr st, h') →
  ∃ m, type = label m ∧ aggregator m r h = (inr st, h').
Proof.
  intros Hrun.
  destruct (decide (type = "ratio")) as [->|H1];
    [by exists Ratio|].
  destruct (decide (type = "bernoulli")) as [->|H2];
    [by exists Bernoulli|].
  destruct (decide (type = "user-level")) as [->|H3];
    [by exists UserLevel|].
  destruct (calculate_statistics_unknown type r h H1 H2 H3) as [_ Hk].
  congruence.
Qed.

(** C5: a label other than ["ratio"], ["bernoulli"] and ["user-level"] is
    not a key of [mappings]: [calculate_statistics] raises [KeyError] on
    it to its caller, with no aggregator run and the store untouched;
    each of the three labels runs the aggregator of its name. *)
Theorem C5_dispatch_by_label :
  ∀ (R : Type) (F : Float64 R) (r : loc),
    (∀ (type : string) (h : heap R),
       type ≠ "ratio" → type ≠ "bernoulli" → type ≠ "user-level" →
       mappings (R:=R) !! type = None ∧
       calculate_statistics r type h = (inl (KeyError type), h)) ∧
    calculate_statistics r "ratio" = BaseStatsRatio r ∧
    calculate_statistics r "bernoulli" = BaseStatsBernoulli r ∧
    calculate_statistics r "user-level" = BaseStatsUserLevel r.
Proof.
  intros R F r. split; [|done].
  intros type h. apply calculate_statistics_unknown.
Qed.

Lemma C5_witness :
  calculate_statistics 0%nat "median" {[ 0%nat := scenario_C ]}
    = (inl (KeyError "median"), {[ 0%nat := scenario_C ]}).
Proof.
  apply (proj1 (C5_dispatch_by_label float b64 0%nat) "median"
           {[ 0%nat := scenario_C ]}); discriminate.
Defined.

(** * What the aggregators leave in the store and in the record *)

Lemma py_sum_int_ones (xs : list Z) :
  Forall (λ x, x = 1) xs → py_sum_int xs = Z.of_nat (length xs).
Proof. induction 1 as [|x xs -> _ IH]; simpl; [done|]. rewrite IH. lia. Qed.

Lemma py_sum_int_ge (xs : list Z) :
  Forall (λ x, 1 ≤ x) xs → Z.of_nat (length xs) ≤ py_sum_int xs.
Proof. induction 1 as [|x xs Hx _ IH]; simpl; lia. Qed.

Lemma py_sum_int_eq_length (xs : list Z) :
  Forall (λ x, 1 ≤ x) xs → py_sum_int xs = Z.of_nat (length xs) →
  Forall (λ x, x = 1) xs.
Proof.
  induction 1 as [|x xs Hx Hxs IH]; simpl; intros Hsum; [constructor|].
  pose proof (py_sum_int_ge xs Hxs).
  constructor; [lia|]. apply IH. lia.
Qed.

Lemma length_select {A B} (mask : list bool) (xs : list A) (ys : list B) :
  length xs = length ys → length (select mask xs) = length (select mask ys).
Proof.
  revert xs ys. induction mask as [|b mask IH]; intros [|x xs] [|y ys];
    simpl; try done.
  intros [= Hlen]. destruct b; simpl; by rewrite (IH xs ys).
Qed.

(** C7, as amended: the Bernoulli and user-level aggregators leave the
    store as they found it.  The ratio aggregator works on the caller's
    frame itself and not on a copy: when it returns, that frame has the
    column [l_ratio] written in place, and its columns [variant], [num],
    [den] and [n], as every other frame of the store, are as before. *)
Theorem C7_ratio_writes_l_ratio_in_place (R : Type) (F : Float64 R)
    (m : metric) (r : loc) (h h' : heap R) (d : DataFrame R)
    (st : Statistics R) :
  h !! r = Some d → aggregator m r h = (inr st, h') →
  ∃ d' : DataFrame R,
    h' = <[r := d']> h ∧
    col_variant d' = col_variant d ∧ col_num d' = col_num d ∧
    col_den d' = col_den d ∧ col_n d' = col_n d ∧
    match m with
    | Ratio => is_Some (col_l_ratio d')
    | Bernoulli | UserLevel => d' = d
    end.
Proof.
  intros Hr Hrun. destruct m; simpl in Hrun.
  - apply BaseStatsRatio_inv in Hrun
      as (d0 & dn & v0 & v1 & lr & Hr0 & _ & _ & _ & -> & _).
    rewrite Hr in Hr0. injection Hr0 as <-.
    exists (with_l_ratio d lr). simpl. eauto 10.
  - apply BaseStatsBernoulli_frame in Hrun as ->.
    exists d. by rewrite insert_id.
  - apply BaseStatsUserLevel_frame in Hrun as ->.
    exists d. by rewrite insert_id.
Qed.

(** C7, as stated, fails on Scenario C: the caller's frame has no column
    [l_ratio] before the ratio aggregator runs and has one after. *)
Lemma C7_counterexample :
  ∃ (st : Statistics float) (h' : heap float),
    BaseStatsRatio 0%nat {[ 0%nat := scenario_C ]} = (inr st, h') ∧
    col_l_ratio <$> ({[ 0%nat := scenario_C ]} : heap float) !! 0%nat
      = Some None ∧
    col_l_ratio <$> h' !! 0%nat = Some (Some (f <$> [0; 0; 0; 10; 10; 10])) ∧
    h' ≠ {[ 0%nat := scenario_C ]}.
Proof.
  eexists _, _. split; [vm_compute; reflexivity|].
  split; [reflexivity|]. split; [reflexivity|].
  intros Heq. apply (f_equal (λ g : heap float, col_l_ratio <$> g !! 0%nat)) in Heq.
  vm_compute in Heq. discriminate.
Qed.

Lemma C7_witness :
  ∃ (st : Statistics float) (d' : DataFrame float),
    BaseStatsRatio 0%nat {[ 0%nat := scenario_C ]}
      = (inr st, <[0%nat := d']> {[ 0%nat := scenario_C ]}) ∧
    col_num d' = col_num scenario_C ∧ is_Some (col_l_ratio d').
Proof.
  destruct (BaseStatsRatio 0%nat {[ 0%nat := scenario_C ]}) as [res h']
    eqn:Hrun.
  assert (Hres : is_Some (match res with inr s => Some s | inl _ => None end)).
  { replace res with (BaseStatsRatio 0%nat {[ 0%nat := scenario_C ]}).1
      by (by rewrite Hrun).
    vm_compute. eauto. }
  destruct res as [e|st]; [by destruct Hres|].
  destruct (C7_ratio_writes_l_ratio_in_place float b64 Ratio 0%nat
              {[ 0%nat := scenario_C ]} h' scenario_C st)
    as (d' & -> & _ & Hnum & _ & _ & Hlr); [reflexivity | exact Hrun |].
  by exists st, d'.
Defined.

(** C8: in every record that [calculate_statistics] returns, [den_0] and
    [den_1] are the ['den'] Series of the two variants when the label is
    ["ratio"], and are [None] when it is ["bernoulli"] or
    ["user-level"]. *)
Theorem C8_den_only_for_ratio (R : Type) (F : Float64 R) (type : string)
    (r : loc) (h h' : heap R) (st : Statistics R) :
  calculate_statistics r type h = (inr st, h') →
  (type = "ratio" ∧
   ∃ (d : DataFrame R) (dn : list R) (v0 v1 : string),
     h !! r = Some d ∧ col_den d = Some dn ∧
     unique (col_variant d) !! 0%nat = Some v0 ∧
     unique (col_variant d) !! 1%nat = Some v1 ∧
     den_0 st = Some (select (eq_mask (col_variant d) v0) dn) ∧
     den_1 st = Some (select (eq_mask (col_variant d) v1) dn)) ∨
  ((type = "bernoulli" ∨ type = "user-level") ∧
   den_0 st = None ∧ den_1 st = None).
Proof.
  intros Hrun.
  apply calculate_statistics_returns in Hrun as ([] & -> & Hrun);
    simpl in Hrun.
  - left. split; [done|].
    apply BaseStatsRatio_inv in Hrun
      as (d & dn & v0 & v1 & lr & Hr & Hdn & H0 & H1 & _ & ->).
    exists d, dn, v0, v1. by simpl.
  - right. apply BaseStatsBernoulli_inv in Hrun
      as (d & v0 & v1 & _ & _ & _ & _ & ->). simpl. eauto.
  - right. apply BaseStatsUserLevel_inv in Hrun
      as (d & v0 & v1 & _ & _ & _ & _ & ->). simpl. eauto.
Qed.

Lemma C8_witness :
  (∃ (st : Statistics float) (h' : heap float),
     calculate_statistics 0%nat "ratio" {[ 0%nat := scenario_C ]}
       = (inr st, h') ∧
     den_0 st = Some (f <$> [5; 5; 5]) ∧ den_1 st = Some (f <$> [5; 5; 5])) ∧
  (∃ (st : Statistics float) (h' : heap float),
     calculate_statistics 0%nat "bernoulli" {[ 0%nat := scenario_C ]}
       = (inr st, h') ∧
     den_0 st = None ∧ den_1 st = None) ∧
  (∃ (st : Statistics float) (h' : heap float),
     calculate_statistics 0%nat "user-level" {[ 0%nat := scenario_C ]}
       = (inr st, h') ∧
     den_0 st = None ∧ den_1 st = None).
Proof.
  pose (h := ({[ 0%nat := scenario_C ]} : heap float)).
  pose (returned := λ run : (exn + Statistics float) * heap float,
          match run.1 with inr st => st | inl _ => record_a end).
  repeat split.
  - pose (run := calculate_statistics 0%nat "ratio" h).
    assert (Hrun : run = (inr (returned run), run.2)) by reflexivity.
    exists (returned run), run.2. split; [exact Hrun|].
    destruct (C8_den_only_for_ratio float b64 "ratio" 0%nat h _ _ Hrun)
      as [(_ & d & dn & v0 & v1 & Hr & Hdn & H0 & H1 & Hd0 & Hd1)
         |([[=]|[=]] & _)].
    vm_compute in Hr, H0, H1. simplify_eq. vm_compute in Hdn. simplify_eq.
    split; [exact Hd0 | exact Hd1].
  - pose (run := calculate_statistics 0%nat "bernoulli" h).
    assert (Hrun : run = (inr (returned run), run.2)) by reflexivity.
    exists (returned run), run.2. split; [exact Hrun|].
    destruct (C8_den_only_for_ratio float b64 "bernoulli" 0%nat h _ _ Hrun)
      as [([=] & _)|(_ & Hd0 & Hd1)].
    split; [exact Hd0 | exact Hd1].
  - pose (run := calculate_statistics 0%nat "user-level" h).
    assert (Hrun : run = (inr (returned run), run.2)) by reflexivity.
    exists (returned run), run.2. split; [exact Hrun|].
    destruct (C8_den_only_for_ratio float b64 "user-level" 0%nat h _ _ Hrun)
      as [([=] & _)|(_ & Hd0 & Hd1)].
    split; [exact Hd0 | exact Hd1].
Defined.

(** C9, as amended: on a frame of two variants each aggregator returns
    [n_0] and [n_1] as the sums of the column [n] over the rows of the
    variant, not as the row counts.  [n_i] is the length of [num_i] when
    every [n] of the variant is 1, and, when every [n] of the variant is
    a count of at least one unit, only then.  [var_i] is the sample
    variance over the rows of the variant, with no weight from [n]: of
    [num] for the Bernoulli and user-level aggregators, of the column
    [l_ratio] for the ratio one. *)
Theorem C9_unit_counts_are_summed (R : Type) (F : Float64 R) (m : metric)
    (h : heap R) (r : loc) (d : DataFrame R) (v0 v1 : string) :
  h !! r = Some d → df_wf d → unique (col_variant d) = [v0; v1] →
  divisions_defined m d v0 v1 →
  let m0 := eq_mask (col_variant d) v0 in
  let m1 := eq_mask (col_variant d) v1 in
  ∃ (st : Statistics R) (h' : heap R),
    aggregator m r h = (inr st, h') ∧
    n_0 st = py_sum_int (select m0 (col_n d)) ∧
    n_1 st = py_sum_int (select m1 (col_n d)) ∧
    num_0 st = select m0 (col_num d) ∧
    num_1 st = select m1 (col_num d) ∧
    (Forall (λ x, x = 1) (select m0 (col_n d)) →
     n_0 st = Z.of_nat (length (num_0 st))) ∧
    (Forall (λ x, x = 1) (select m1 (col_n d)) →
     n_1 st = Z.of_nat (length (num_1 st))) ∧
    (Forall (λ x, 1 ≤ x) (select m0 (col_n d)) →
     n_0 st = Z.of_nat (length (num_0 st)) →
     Forall (λ x, x = 1) (select m0 (col_n d))) ∧
    (Forall (λ x, 1 ≤ x) (select m1 (col_n d)) →
     n_1 st = Z.of_nat (length (num_1 st)) →
     Forall (λ x, x = 1) (select m1 (col_n d))) ∧
    match m with
    | Ratio =>
        ∃ lr : list R,
          h' !! r = Some (with_l_ratio d lr) ∧
          var_0 st = series_var (select m0 lr) ∧
          var_1 st = series_var (select m1 lr)
    | Bernoulli | UserLevel =>
        var_0 st = series_var (num_0 st) ∧ var_1 st = series_var (num_1 st)
    end.
Proof.
  intros Hr Hwf Hu Hdiv m0 m1.
  assert (H0 : unique (col_variant d) !! 0%nat = Some v0) by (by rewrite Hu).
  assert (H1 : unique (col_variant d) !! 1%nat = Some v1) by (by rewrite Hu).
  assert (Hlen : ∀ mask, length (select mask (col_n d))
                         = length (select mask (col_num d))).
  { intros mask. apply length_select. destruct Hwf as (-> & -> & _). done. }
  assert (Hcounts : ∀ mask,
    (Forall (λ x, x = 1) (select mask (col_n d)) →
     py_sum_int (select mask (col_n d))
       = Z.of_nat (length (select mask (col_num d)))) ∧
    (Forall (λ x, 1 ≤ x) (select mask (col_n d)) →
     py_sum_int (select mask (col_n d))
       = Z.of_nat (length (select mask (col_num d))) →
     Forall (λ x, x = 1) (select mask (col_n d)))).
  { intros mask. rewrite <- Hlen.
    split; [apply py_sum_int_ones | apply py_sum_int_eq_length]. }
  destruct m; simpl in Hdiv |- *.
  - destruct (col_den d) as [dn|] eqn:Hdn; [|done].
    destruct Hdiv as [Hd0 Hd1].
    eexists _, _.
    rewrite (BaseStatsRatio_run h r d dn v0 v1 Hr Hwf Hdn Hu Hd0 Hd1).
    simpl. split; [done|]. repeat split; try apply Hcounts.
    eexists. by rewrite lookup_insert_eq.
  - destruct Hdiv as [Hn0 Hn1].
    destruct (BaseStatsBernoulli_run h r d v0 v1 Hr H0 H1 Hn0 Hn1)
      as [st Hrun].
    exists st, h. split; [done|].
    apply BaseStatsBernoulli_inv in Hrun
      as (d' & v0' & v1' & Hr' & H0' & H1' & _ & ->).
    simplify_eq. simpl. repeat split; apply Hcounts.
  - destruct (BaseStatsUserLevel_run h r d v0 v1 Hr H0 H1) as [st Hrun].
    exists st, h. split; [done|].
    apply BaseStatsUserLevel_inv in Hrun
      as (d' & v0' & v1' & Hr' & H0' & H1' & _ & ->).
    simplify_eq. simpl. repeat split; apply Hcounts.
Qed.

Lemma C9_witness :
  ∃ (st : Statistics float) (h' : heap float),
    aggregator Ratio 0%nat {[ 0%nat := frame_den_is_n ]} = (inr st, h') ∧
    n_0 st = 2 ∧ length (num_0 st) = 2%nat ∧
    n_1 st = 2 ∧ length (num_1 st) = 1%nat.
Proof.
  destruct (C9_unit_counts_are_summed float b64 Ratio
              {[ 0%nat := frame_den_is_n ]} 0%nat frame_den_is_n "A" "B")
    as (st & h' & Hrun & Hn0 & Hn1 & Hnum0 & Hnum1 & _);
    [reflexivity | vm_compute; tauto | reflexivity | vm_compute; tauto |].
  exists st, h'. rewrite Hn0, Hn1, Hnum0, Hnum1.
  split; [exact Hrun|]. repeat split.
Defined.

(** C9, as stated, fails on rows aggregated beforehand: the two rows of
    variant [A] carry the unit counts 2 and 0, so [n_0] is 2, the length
    of [num_0], although no count of the variant is 1. *)
Lemma C9_counterexample :
  ∃ (st : Statistics float) (h' : heap float),
    BaseStatsUserLevel 0%nat {[ 0%nat := frame_aggregated ]} = (inr st, h') ∧
    select (eq_mask (col_variant frame_aggregated) "A") (col_n frame_aggregated)
      = [2; 0] ∧
    n_0 st = Z.of_nat (length (num_0 st)) ∧
    ¬ Forall (λ x, x = 1)
        (select (eq_mask (col_variant frame_aggregated) "A")
           (col_n frame_aggregated)).
Proof.
  eexists _, _. split; [vm_compute; reflexivity|].
  split; [reflexivity|]. split; [reflexivity|].
  intros Hall. vm_compute in Hall. by inversion Hall.
Qed.

(** * Edge behaviour of the aggregators *)

Lemma loc_assign_select_lookup {A} (mask : list bool) (col new : list A)
    (i : nat) :
  length col = length mask → length new = length mask →
  loc_assign mask col (select mask new) !! i
    = match mask !! i with
      | Some true => new !! i
      | _ => col !! i
      end.
Proof.
  revert col new i. induction mask as [|b mask IH]; intros [|c col] [|x new] i;
    simpl; try done.
  intros [= Hc] [= Hn]. destruct b, i as [|i]; simpl; try done; by apply IH.
Qed.

Lemma select_all_true {A} (vs : list string) (v : string) (xs : list A) :
  (∀ x, x ∈ vs → x = v) → length xs = length vs →
  select (eq_mask vs v) xs = xs.
Proof.
  revert xs. induction vs as [|w vs IH]; intros [|x xs] Hall; simpl; try done.
  intros [= Hlen]. rewrite bool_decide_eq_true_2 by (apply Hall; left).
  f_equal. apply IH; [|done]. intros y Hy. apply Hall. by right.
Qed.

Lemma loc_assign_all_true {A} (vs : list string) (v : string)
    (col new : list A) :
  (∀ x, x ∈ vs → x = v) → length col = length vs → length new = length vs →
  loc_assign (eq_mask vs v) col new = new.
Proof.
  revert col new. induction vs as [|w vs IH]; intros [|c col] [|x new] Hall;
    simpl; try done.
  intros [= Hc] [= Hn]. rewrite bool_decide_eq_true_2 by (apply Hall; left).
  f_equal. apply IH; [|done..]. intros y Hy. apply Hall. by right.
Qed.

Lemma unique_one (xs : list string) (v : string) :
  unique xs = [v] → ∀ x, x ∈ xs → x = v.
Proof.
  intros Hu x Hx. apply unique_elem in Hx. rewrite Hu in Hx. set_solver.
Qed.

Lemma unique_nil (xs : list string) : unique xs = [] → xs = [].
Proof. by destruct xs. Qed.

Lemma unique_short (xs : list string) :
  unique xs !! 1%nat = None → xs = [] ∨ ∃ v, unique xs = [v].
Proof.
  destruct (unique xs) as [|v [|w us]] eqn:Hu; simpl; try done.
  - left. by apply unique_nil.
  - right. by exists v.
Qed.

(** The unit counts of a two-variant frame split between the variants. *)
Lemma select_two_variants_sum (vs : list string) (v0 v1 : string)
    (ns : list Z) :
  v0 ≠ v1 → (∀ x, x ∈ vs → x = v0 ∨ x = v1) → length ns = length vs →
  py_sum_int (select (eq_mask vs v0) ns)
    + py_sum_int (select (eq_mask vs v1) ns) = py_sum_int ns.
Proof.
  intros Hne. revert ns. induction vs as [|v vs IH]; intros [|x ns] Hvs;
    simpl; try done.
  intros [= Hlen].
  assert (IH' := IH ns (λ y Hy, Hvs y (list_elem_of_further _ _ _ Hy)) Hlen).
  destruct (Hvs v) as [->| ->]; [left|..].
  - rewrite bool_decide_eq_true_2, bool_decide_eq_false_2 by done.
    simpl. lia.
  - rewrite bool_decide_eq_false_2, bool_decide_eq_true_2 by done.
    simpl. lia.
Qed.

Lemma select_two_variants_length {A} (vs : list string) (v0 v1 : string)
    (xs : list A) :
  v0 ≠ v1 → (∀ x, x ∈ vs → x = v0 ∨ x = v1) → length xs = length vs →
  (length (select (eq_mask vs v0) xs)
    + length (select (eq_mask vs v1) xs) = length xs)%nat.
Proof.
  intros Hne. revert xs. induction vs as [|v vs IH]; intros [|x xs] Hvs;
    simpl; try done.
  intros [= Hlen].
  assert (IH' := IH xs (λ y Hy, Hvs y (list_elem_of_further _ _ _ Hy)) Hlen).
  destruct (Hvs v) as [->| ->]; [left|..].
  - rewrite bool_decide_eq_true_2, bool_decide_eq_false_2 by done.
    simpl. lia.
  - rewrite bool_decide_eq_false_2, bool_decide_eq_true_2 by done.
    simpl. lia.
Qed.

Section EdgeBehaviour.
Context {R : Type} `{Float64 R}.

Ltac exec :=
  unfold mbind, mret, M_bind, M_ret, bind, ret, raise, call, read, write;
  simpl.

Ltac exec_with Hr Hdn :=
  repeat first [rewrite Hr | rewrite lookup_insert_eq | rewrite Hdn
               | progress simpl].

(** [calculate_linearization] on a frame with at least two variants:
    both paths assign, over a column of zeros, the rows of the first and
    then of the second variant from one full-length column. *)
Lemma calculate_linearization_general (h : heap R) (r : loc)
    (d : DataFrame R) (dn : list R) (v0 v1 : string) :
  h !! r = Some d → col_den d = Some dn →
  unique (col_variant d) !! 0%nat = Some v0 →
  unique (col_variant d) !! 1%nat = Some v1 →
  let m0 := eq_mask (col_variant d) v0 in
  let m1 := eq_mask (col_variant d) v1 in
  let new := if den_eq_n_all dn (col_n d) then col_num d
             else linearize (pooled_ratio d dn v0) (col_num d) dn in
  calculate_linearization r h =
    (inr r,
     <[r := with_l_ratio d
              (loc_assign m1
                 (loc_assign m0
                    (replicate (length (col_variant d)) (of_int 0))
                    (select m0 new))
                 (select m1 new))]> h).
Proof.
  intros Hr Hdn H0 H1 m0 m1 new.
  unfold calculate_linearization, set_l_ratio_zero, get_den, variant_mask,
    loc_assign_l_ratio, get_l_ratio, getitem.
  exec. exec_with Hr Hdn. subst new.
  destruct (den_eq_n_all dn (col_n d)) eqn:Hall; simpl;
    rewrite ?H0, ?H1; exec_with Hr Hdn; rewrite ?H0, ?H1; exec_with Hr Hdn;
    rewrite !insert_insert_eq; unfold with_l_ratio; simpl; [done|].
  unfold linearize, pooled_ratio. by rewrite !select_zip_with.
Qed.

(** X1: on a frame with two variants or more, [calculate_linearization]
    returns and writes the linearized value (or [num], when every row
    has [den == n]) into the rows of the first two variants only: every
    row of another variant holds 0 in [l_ratio]. *)
Theorem X1_rows_of_other_variants_hold_zero (h : heap R) (r : loc)
    (d : DataFrame R) (dn : list R) (v0 v1 : string) :
  h !! r = Some d → df_wf d → col_den d = Some dn →
  unique (col_variant d) !! 0%nat = Some v0 →
  unique (col_variant d) !! 1%nat = Some v1 →
  let m0 := eq_mask (col_variant d) v0 in
  let k := fdiv (np_sum (select m0 (col_num d))) (np_sum (select m0 dn)) in
  let new := if den_eq_n_all dn (col_n d) then col_num d
             else zip_with (λ x y, fsub x (fmul k y)) (col_num d) dn in
  ∃ lr : list R,
    calculate_linearization r h = (inr r, <[r := with_l_ratio d lr]> h) ∧
    length lr = length (col_variant d) ∧
    ∀ (i : nat) (v : string), col_variant d !! i = Some v →
      lr !! i = if bool_decide (v = v0 ∨ v = v1) then new !! i
                else Some (of_int 0).
Proof.
  intros Hr (Hnum & Hn & Hden & _) Hdn H0 H1 m0 k new.
  rewrite Hdn in Hden. simpl in Hden.
  eexists. split; [by apply calculate_linearization_general|].
  fold m0. change (linearize (pooled_ratio d dn v0) (col_num d) dn)
    with (zip_with (λ x y, fsub x (fmul k y)) (col_num d) dn). fold new.
  assert (Hnew : length new = length (col_variant d)).
  { subst new. destruct (den_eq_n_all _ _); [done|].
    rewrite length_zip_with. lia. }
  split; [by rewrite !length_loc_assign, length_replicate|].
  intros i v Hv.
  assert (Hm : ∀ w, length (eq_mask (col_variant d) w)
                     = length (col_variant d)) by (intros; apply length_eq_mask).
  rewrite !loc_assign_select_lookup;
    rewrite ?length_loc_assign, ?length_replicate; unfold m0; rewrite ?Hm;
    try done.
  unfold eq_mask. rewrite !list_lookup_fmap, Hv. simpl.
  assert (Hi : (i < length (col_variant d))%nat) by (by eapply lookup_lt_Some).
  repeat case_bool_decide; try done; try naive_solver.
  by apply lookup_replicate_2.
Qed.

(** X2: on a frame with fewer than two distinct variants, the Bernoulli
    and user-level aggregators raise [IndexError] and leave the store as
    it was. *)
Theorem X2_one_variant_raises_IndexError (m : metric) (h : heap R)
    (r : loc) (d : DataFrame R) :
  m ≠ Ratio → h !! r = Some d →
  unique (col_variant d) !! 1%nat = None →
  aggregator m r h = (inl IndexError, h).
Proof.
  intros Hm Hr H1. destruct m; [done| |]; simpl;
    unfold BaseStatsBernoulli, BaseStatsUserLevel, variant_mask, getitem;
    exec; rewrite Hr; simpl;
    destruct (unique (col_variant d)) as [|v0 [|v1 us]]; simpl in *;
    try done; by rewrite Hr.
Qed.

(** X3: on a frame with fewer than two distinct variants and a [den]
    column, the ratio aggregator raises [IndexError] after it has
    written to the caller's frame: the frame is left with the column
    [l_ratio], equal to [num] when every row has [den == n] and all zero
    otherwise. *)
Theorem X3_ratio_one_variant_fails_after_writing (h : heap R) (r : loc)
    (d : DataFrame R) (dn : list R) :
  h !! r = Some d → df_wf d → col_den d = Some dn →
  unique (col_variant d) !! 1%nat = None →
  BaseStatsRatio r h =
    (inl IndexError,
     <[r := with_l_ratio d
              (if den_eq_n_all dn (col_n d) then col_num d
               else replicate (length (col_variant d)) (of_int 0))]> h).
Proof.
  intros Hr (Hnum & Hn & Hden & _) Hdn H1.
  unfold BaseStatsRatio, calculate_linearization, set_l_ratio_zero, get_den,
    variant_mask, loc_assign_l_ratio, get_l_ratio, getitem.
  exec. exec_with Hr Hdn.
  destruct (unique_short _ H1) as [Hnil|[v Hu]].
  - assert (Hnum' : col_num d = []).
    { apply length_zero_iff_nil. by rewrite Hnum, Hnil. }
    rewrite Hnil, Hnum'. simpl.
    by destruct (den_eq_n_all dn (col_n d)).
  - rewrite Hu. simpl.
    destruct (den_eq_n_all dn (col_n d)); simpl; exec_with Hr Hdn;
      rewrite ?insert_insert_eq; [|done].
    unfold with_l_ratio. simpl. do 4 f_equal.
    pose proof (unique_one _ _ Hu) as Hall.
    rewrite select_all_true by done.
    apply loc_assign_all_true; by rewrite ?length_replicate.
Qed.

(** X4: on a frame without a ['den'] column the ratio aggregator raises
    [KeyError] for ['den'], after it has added a column [l_ratio] of
    zeros to the caller's frame. *)
Theorem X4_ratio_without_den_raises_KeyError (h : heap R) (r : loc)
    (d : DataFrame R) :
  h !! r = Some d → col_den d = None →
  BaseStatsRatio r h =
    (inl (KeyError "den"),
     <[r := with_l_ratio d
              (replicate (length (col_variant d)) (of_int 0))]> h).
Proof.
  intros Hr Hdn.
  unfold BaseStatsRatio, calculate_linearization, set_l_ratio_zero, get_den.
  exec. by exec_with Hr Hdn.
Qed.

(** X5: on a two-variant frame where the ['den'] values of a variant
    sum to zero, the ratio aggregator raises [ZeroDivisionError] from
    the division for the mean, after [calculate_linearization] has
    returned and written the column [l_ratio] into the caller's frame. *)
Theorem X5_ratio_zero_denominator_sum (h : heap R) (r : loc)
    (d : DataFrame R) (dn : list R) (v0 v1 : string) :
  h !! r = Some d → df_wf d → col_den d = Some dn →
  unique (col_variant d) = [v0; v1] →
  let m0 := eq_mask (col_variant d) v0 in
  let m1 := eq_mask (col_variant d) v1 in
  feqb (py_sum (select m0 dn)) (of_int 0) = true ∨
  feqb (py_sum (select m1 dn)) (of_int 0) = true →
  let k := fdiv (np_sum (select m0 (col_num d))) (np_sum (select m0 dn)) in
  let lr := if den_eq_n_all dn (col_n d) then col_num d
            else zip_with (λ x y, fsub x (fmul k y)) (col_num d) dn in
  calculate_linearization r h = (inr r, <[r := with_l_ratio d lr]> h) ∧
  BaseStatsRatio r h = (inl ZeroDivisionError, <[r := with_l_ratio d lr]> h).
Proof.
  intros Hr Hwf Hdn Hu m0 m1 Hzero k lr.
  pose proof (calculate_linearization_run h r d dn v0 v1 Hr Hwf Hdn Hu)
    as Hlin.
  split; [exact Hlin|].
  unfold BaseStatsRatio.
  unfold mbind, M_bind. unfold bind at 1. unfold read at 1.
  rewrite Hr. unfold bind at 1. rewrite Hlin.
  unfold get_den, get_l_ratio, variant_mask, getitem, truediv. exec.
  repeat first [rewrite lookup_insert_eq | rewrite Hdn | rewrite Hu
               | progress simpl].
  fold m0 m1.
  destruct (feqb (py_sum (select m0 dn)) (of_int 0)) eqn:E0; [done|].
  destruct Hzero as [?|E1]; [done|]. by rewrite E1.
Qed.

(** X6: on a frame with two variants or more where the unit counts of
    one of the first two variants sum to zero, the Bernoulli aggregator
    raises [ZeroDivisionError] and leaves the store as it was. *)
Theorem X6_bernoulli_zero_units (h : heap R) (r : loc) (d : DataFrame R)
    (v0 v1 : string) :
  h !! r = Some d →
  unique (col_variant d) !! 0%nat = Some v0 →
  unique (col_variant d) !! 1%nat = Some v1 →
  py_sum_int (select (eq_mask (col_variant d) v0) (col_n d)) = 0 ∨
  py_sum_int (select (eq_mask (col_variant d) v1) (col_n d)) = 0 →
  BaseStatsBernoulli r h = (inl ZeroDivisionError, h).
Proof.
  intros Hr H0 H1 Hzero.
  unfold BaseStatsBernoulli, variant_mask, getitem, truediv_int. exec.
  rewrite Hr. simpl. rewrite H0, H1. simpl. rewrite Hr. simpl.
  rewrite Hr. simpl.
  destruct (py_sum_int (select (eq_mask (col_variant d) v0) (col_n d)) =? 0)
    eqn:E0; [done|].
  destruct Hzero as [Hz|Hz]; [apply Z.eqb_neq in E0; done|].
  by rewrite Hz.
Qed.

(** X7: whatever the ratio aggregator does on a frame, return or raise,
    the store afterwards differs from the one before in the column
    [l_ratio] of that frame only: the frame has an [l_ratio] of the
    frame's length, its other columns and all other frames are as
    before. *)
Theorem X7_ratio_touches_l_ratio_only (h h' : heap R) (r : loc)
    (d : DataFrame R) (res : exn + Statistics R) :
  h !! r = Some d → BaseStatsRatio r h = (res, h') →
  ∃ lr : list R,
    h' = <[r := with_l_ratio d lr]> h ∧
    length lr = length (col_variant d).
Proof.
  unfold BaseStatsRatio, calculate_linearization, set_l_ratio_zero, get_den,
    variant_mask, loc_assign_l_ratio, get_l_ratio, getitem, truediv.
  exec. intros Hr Hrun.
  repeat (case_match; simplify_map_eq/=);
    rewrite ?insert_insert_eq; unfold with_l_ratio; simpl;
    (eexists; split; [reflexivity|]);
    by rewrite ?length_loc_assign, length_replicate.
Qed.

(** X8: the ratio aggregator can be run again on the frame it has
    written to: the second run returns the same record as the first and
    leaves the store as the first run left it. *)
Theorem X8_ratio_twice (h : heap R) (r : loc) (d : DataFrame R)
    (dn : list R) (v0 v1 : string) :
  h !! r = Some d → df_wf d → col_den d = Some dn →
  unique (col_variant d) = [v0; v1] →
  feqb (py_sum (select (eq_mask (col_variant d) v0) dn)) (of_int 0) = false →
  feqb (py_sum (select (eq_mask (col_variant d) v1) dn)) (of_int 0) = false →
  ∃ (st : Statistics R) (h1 : heap R),
    BaseStatsRatio r h = (inr st, h1) ∧
    BaseStatsRatio r h1 = (inr st, h1).
Proof.
  intros Hr Hwf Hdn Hu Hd0 Hd1.
  pose proof (BaseStatsRatio_run h r d dn v0 v1 Hr Hwf Hdn Hu Hd0 Hd1)
    as Hrun1. simpl in Hrun1.
  eexists _, _. split; [exact Hrun1|].
  set (lr := if den_eq_n_all dn (col_n d) then col_num d
             else linearize (pooled_ratio d dn v0) (col_num d) dn) in *.
  assert (Hwf' : df_wf (with_l_ratio d lr)).
  { destruct Hwf as (Hnum & Hn & Hden & _). rewrite Hdn in Hden.
    repeat split; simpl; try done; [by rewrite Hdn|].
    subst lr. destruct (den_eq_n_all _ _); [done|].
    unfold linearize. rewrite length_zip_with. simpl in Hden. lia. }
  rewrite (BaseStatsRatio_run (<[r := with_l_ratio d lr]> h) r
             (with_l_ratio d lr) dn v0 v1); try done.
  - simpl. by rewrite insert_insert_eq.
  - by rewrite lookup_insert_eq.
Qed.

(** What every returned record retains of the frame. *)
Lemma aggregator_retains (m : metric) (h h' : heap R) (r : loc)
    (st : Statistics R) :
  aggregator m r h = (inr st, h') →
  ∃ d v0 v1,
    h !! r = Some d ∧ unique (col_variant d) !! 0%nat = Some v0 ∧
    unique (col_variant d) !! 1%nat = Some v1 ∧
    n_0 st = py_sum_int (select (eq_mask (col_variant d) v0) (col_n d)) ∧
    n_1 st = py_sum_int (select (eq_mask (col_variant d) v1) (col_n d)) ∧
    num_0 st = select (eq_mask (col_variant d) v0) (col_num d) ∧
    num_1 st = select (eq_mask (col_variant d) v1) (col_num d).
Proof.
  destruct m; simpl; intros Hrun.
  - apply BaseStatsRatio_inv in Hrun
      as (d & dn & v0 & v1 & lr & Hr & _ & H0 & H1 & _ & ->).
    exists d, v0, v1. by simpl.
  - apply BaseStatsBernoulli_inv in Hrun
      as (d & v0 & v1 & Hr & H0 & H1 & _ & ->).
    exists d, v0, v1. by simpl.
  - apply BaseStatsUserLevel_inv in Hrun
      as (d & v0 & v1 & Hr & H0 & H1 & _ & ->).
    exists d, v0, v1. by simpl.
Qed.

Lemma aggregator_returns (m : metric) (h : heap R) (r : loc)
    (d : DataFrame R) (v0 v1 : string) :
  h !! r = Some d → df_wf d → unique (col_variant d) = [v0; v1] →
  divisions_defined m d v0 v1 →
  ∃ st h', aggregator m r h = (inr st, h').
Proof.
  intros Hr Hwf Hu Hdiv.
  assert (H0 : unique (col_variant d) !! 0%nat = Some v0) by (by rewrite Hu).
  assert (H1 : unique (col_variant d) !! 1%nat = Some v1) by (by rewrite Hu).
  destruct m; simpl in *.
  - destruct (col_den d) as [dn|] eqn:Hdn; [|done].
    destruct Hdiv as [Hd0 Hd1]. eexists _, _.
    by apply (BaseStatsRatio_run h r d dn v0 v1).
  - destruct Hdiv as [Hn0 Hn1].
    destruct (BaseStatsBernoulli_run h r d v0 v1) as [st Hst]; eauto.
  - destruct (BaseStatsUserLevel_run h r d v0 v1) as [st Hst]; eauto.
Qed.

(** X9: on a two-variant frame every aggregator splits the rows between
    its two variants and loses none: [n_0 + n_1] is the sum of the whole
    column [n], and the lengths of [num_0] and [num_1] add up to the
    number of rows. *)
Theorem X9_two_variants_partition_the_rows (m : metric) (h : heap R)
    (r : loc) (d : DataFrame R) (v0 v1 : string) :
  h !! r = Some d → df_wf d → unique (col_variant d) = [v0; v1] →
  divisions_defined m d v0 v1 →
  ∃ (st : Statistics R) (h' : heap R),
    aggregator m r h = (inr st, h') ∧
    n_0 st + n_1 st = py_sum_int (col_n d) ∧
    (length (num_0 st) + length (num_1 st) = length (col_variant d))%nat.
Proof.
  intros Hr Hwf Hu Hdiv.
  destruct (aggregator_returns m h r d v0 v1 Hr Hwf Hu Hdiv)
    as (st & h' & Hrun).
  exists st, h'. split; [done|].
  apply aggregator_retains in Hrun
    as (d' & w0 & w1 & Hr' & H0 & H1 & -> & -> & -> & ->).
  rewrite Hr in Hr'. injection Hr' as <-.
  rewrite Hu in H0, H1. simpl in H0, H1. simplify_eq.
  destruct (unique_two _ _ _ Hu) as [Hne Hvs].
  destruct Hwf as (Hnum & Hn & _).
  split.
  - by apply select_two_variants_sum.
  - rewrite <- Hnum. by apply select_two_variants_length.
Qed.

(** X10: the Mann-Whitney estimator gives the same result on the records
    that any two aggregators return on one frame: the three aggregators
    retain the same [num] Series. *)
Theorem X10_mann_whitney_same_for_all_metrics (m m' : metric)
    (mannwhitneyu : list R → list R → exn + (R * R))
    (h h1 h1' : heap R) (r : loc) (st st' : Statistics R) (log : logger) :
  aggregator m r h = (inr st, h1) → aggregator m' r h = (inr st', h1') →
  MannWhitney mannwhitneyu st log = MannWhitney mannwhitneyu st' log.
Proof.
  intros Hrun Hrun'.
  apply aggregator_retains in Hrun
    as (d & v0 & v1 & Hr & H0 & H1 & _ & _ & Hn0 & Hn1).
  apply aggregator_retains in Hrun'
    as (d' & v0' & v1' & Hr' & H0' & H1' & _ & _ & Hn0' & Hn1').
  simplify_eq. rewrite !MannWhitney_run. by rewrite Hn0, Hn1, Hn0', Hn1'.
Qed.

(** X11: the t-test estimator reads the means, variances and unit counts
    of a record only: records that agree on these six fields get the
    same result and the same log, whatever Series they carry. *)
Theorem X11_ttest_reads_moments_only
    (ttest_ind_from_stats : R → R → Z → R → R → Z → exn + (R * R))
    (stat stat' : Statistics R) (log : logger) :
  mean_0 stat = mean_0 stat' → mean_1 stat = mean_1 stat' →
  var_0 stat = var_0 stat' → var_1 stat = var_1 stat' →
  n_0 stat = n_0 stat' → n_1 stat = n_1 stat' →
  TTestFromStats ttest_ind_from_stats stat log
    = TTestFromStats ttest_ind_from_stats stat' log.
Proof.
  intros Hm0 Hm1 Hv0 Hv1 Hn0 Hn1.
  by rewrite !TTestFromStats_run, Hm0, Hm1, Hv0, Hv1, Hn0, Hn1.
Qed.

(** X12: the proportions z-test estimator reads the sums of the two
    [num] Series and the unit counts only: the means and variances of
    the record play no part. *)
Theorem X12_ztest_reads_sums_and_counts_only
    (proportions_ztest : list R → list Z → exn + (R * R))
    (stat stat' : Statistics R) (log : logger) :
  series_sum (num_0 stat) = series_sum (num_0 stat') →
  series_sum (num_1 stat) = series_sum (num_1 stat') →
  n_0 stat = n_0 stat' → n_1 stat = n_1 stat' →
  ProportionsZtest proportions_ztest stat log
    = ProportionsZtest proportions_ztest stat' log.
Proof.
  intros Hs0 Hs1 Hn0 Hn1.
  by rewrite !ProportionsZtest_run, Hs0, Hs1, Hn0, Hn1.
Qed.

(** X13: on a two-variant frame where every row has [den == n], the
    ratio aggregator returns the variances, unit counts and [num] Series
    that the user-level aggregator returns on the same frame: with no
    linearization the variance is that of [num]. *)
Theorem X13_ratio_without_linearization_matches_user_level (h : heap R)
    (r : loc) (d : DataFrame R) (dn : list R) (v0 v1 : string) :
  h !! r = Some d → df_wf d → col_den d = Some dn →
  unique (col_variant d) = [v0; v1] →
  den_eq_n_all dn (col_n d) = true →
  feqb (py_sum (select (eq_mask (col_variant d) v0) dn)) (of_int 0) = false →
  feqb (py_sum (select (eq_mask (col_variant d) v1) dn)) (of_int 0) = false →
  ∃ (st_r st_u : Statistics R) (h_r : heap R),
    BaseStatsRatio r h = (inr st_r, h_r) ∧
    BaseStatsUserLevel r h = (inr st_u, h) ∧
    var_0 st_r = var_0 st_u ∧ var_1 st_r = var_1 st_u ∧
    n_0 st_r = n_0 st_u ∧ n_1 st_r = n_1 st_u ∧
    num_0 st_r = num_0 st_u ∧ num_1 st_r = num_1 st_u.
Proof.
  intros Hr Hwf Hdn Hu Hall Hd0 Hd1.
  assert (H0 : unique (col_variant d) !! 0%nat = Some v0) by (by rewrite Hu).
  assert (H1 : unique (col_variant d) !! 1%nat = Some v1) by (by rewrite Hu).
  destruct (BaseStatsUserLevel_run h r d v0 v1 Hr H0 H1) as [st_u Hrun_u].
  eexists _, st_u, _.
  rewrite (BaseStatsRatio_run h r d dn v0 v1 Hr Hwf Hdn Hu Hd0 Hd1), Hall.
  split; [done|]. split; [done|].
  apply BaseStatsUserLevel_inv in Hrun_u
    as (d' & w0 & w1 & Hr' & H0' & H1' & _ & ->).
  by simplify_eq.
Qed.

(** X14: the user-level aggregator followed by the t-test estimator: the
    record is returned with the store untouched, and the routine is
    called with the totals of [num] of the two variants in the place of
    the means, the square roots of the sample variances of [num], and
    the summed unit counts; the estimator fails softly on its outcome. *)
Theorem X14_user_level_then_ttest
    (ttest_ind_from_stats : R → R → Z → R → R → Z → exn + (R * R))
    (h : heap R) (r : loc) (d : DataFrame R) (v0 v1 : string)
    (log : logger) :
  h !! r = Some d →
  unique (col_variant d) !! 0%nat = Some v0 →
  unique (col_variant d) !! 1%nat = Some v1 →
  let num0 := select (eq_mask (col_variant d) v0) (col_num d) in
  let num1 := select (eq_mask (col_variant d) v1) (col_num d) in
  let units0 := select (eq_mask (col_variant d) v0) (col_n d) in
  let units1 := select (eq_mask (col_variant d) v1) (col_n d) in
  ∃ st : Statistics R,
    BaseStatsUserLevel r h = (inr st, h) ∧
    soft_failure
      (ttest_ind_from_stats
         (py_sum num0) (np_sqrt (series_var num0)) (py_sum_int units0)
         (py_sum num1) (np_sqrt (series_var num1)) (py_sum_int units1))
      log (TTestFromStats ttest_ind_from_stats st log).
Proof.
  intros Hr H0 H1 num0 num1 units0 units1.
  destruct (BaseStatsUserLevel_run h r d v0 v1 Hr H0 H1) as [st Hrun].
  exists st. split; [done|].
  apply BaseStatsUserLevel_inv in Hrun
    as (d' & w0 & w1 & Hr' & H0' & H1' & _ & ->).
  simplify_eq. rewrite TTestFromStats_run. simpl.
  apply soft_failure_intro.
Qed.

(** X15: the Bernoulli aggregator followed by the proportions z-test
    estimator, where both variants have units: the routine is called
    with the sums of [num] of the two variants as success counts and
    the summed unit counts as trials; the estimator fails softly on its
    outcome. *)
Theorem X15_bernoulli_then_ztest
    (proportions_ztest : list R → list Z → exn + (R * R))
    (h : heap R) (r : loc) (d : DataFrame R) (v0 v1 : string)
    (log : logger) :
  h !! r = Some d →
  unique (col_variant d) !! 0%nat = Some v0 →
  unique (col_variant d) !! 1%nat = Some v1 →
  let num0 := select (eq_mask (col_variant d) v0) (col_num d) in
  let num1 := select (eq_mask (col_variant d) v1) (col_num d) in
  let units0 := select (eq_mask (col_variant d) v0) (col_n d) in
  let units1 := select (eq_mask (col_variant d) v1) (col_n d) in
  py_sum_int units0 ≠ 0 → py_sum_int units1 ≠ 0 →
  ∃ st : Statistics R,
    BaseStatsBernoulli r h = (inr st, h) ∧
    mean_0 st = fdiv (py_sum num0) (of_int (py_sum_int units0)) ∧
    mean_1 st = fdiv (py_sum num1) (of_int (py_sum_int units1)) ∧
    soft_failure
      (proportions_ztest [series_sum num0; series_sum num1]
                         [py_sum_int units0; py_sum_int units1])
      log (ProportionsZtest proportions_ztest st log).
Proof.
  intros Hr H0 H1 num0 num1 units0 units1 Hn0 Hn1.
  destruct (BaseStatsBernoulli_run h r d v0 v1 Hr H0 H1 Hn0 Hn1)
    as [st Hrun].
  exists st. split; [done|].
  apply BaseStatsBernoulli_inv in Hrun
    as (d' & w0 & w1 & Hr' & H0' & H1' & _ & ->).
  simplify_eq. rewrite ProportionsZtest_run. simpl.
  repeat split. apply soft_failure_intro.
Qed.

End EdgeBehaviour.

(** ** The edge cases on concrete frames *)

Lemma X1_witness :
  ∃ lr : list float,
    calculate_linearization 0%nat {[ 0%nat := frame_three_variants ]}
      = (inr 0%nat,
         <[0%nat := with_l_ratio frame_three_variants lr]>
           {[ 0%nat := frame_three_variants ]}) ∧
    lr !! 1%nat = Some 1%float ∧ lr !! 2%nat = Some 0%float.
Proof.
  destruct (@X1_rows_of_other_variants_hold_zero float b64
              {[ 0%nat := frame_three_variants ]} 0%nat frame_three_variants
              (f <$> [1; 2; 1; 4]) "A" "B")
    as (lr & Hrun & _ & Hrows);
    [reflexivity | vm_compute; tauto | reflexivity | reflexivity
    | reflexivity |].
  exists lr. split; [exact Hrun|]. split.
  - exact (Hrows 1%nat "B" eq_refl).
  - exact (Hrows 2%nat "C" eq_refl).
Defined.

Lemma X2_witness :
  aggregator Bernoulli 0%nat {[ 0%nat := frame_one_variant ]}
    = (inl IndexError, {[ 0%nat := frame_one_variant ]}).
Proof.
  apply (@X2_one_variant_raises_IndexError float b64 Bernoulli
           {[ 0%nat := frame_one_variant ]} 0%nat frame_one_variant);
    [discriminate | reflexivity | reflexivity].
Defined.

Lemma X3_witness :
  BaseStatsRatio 0%nat {[ 0%nat := frame_one_variant ]}
    = (inl IndexError,
       <[0%nat := with_l_ratio frame_one_variant (f <$> [1; 2])]>
         {[ 0%nat := frame_one_variant ]}).
Proof.
  rewrite (@X3_ratio_one_variant_fails_after_writing float b64
             {[ 0%nat := frame_one_variant ]} 0%nat frame_one_variant
             (f <$> [1; 1]));
    [reflexivity | reflexivity | vm_compute; tauto | reflexivity
    | reflexivity].
Defined.

Lemma X4_witness :
  BaseStatsRatio 0%nat {[ 0%nat := scenario_A ]}
    = (inl (KeyError "den"),
       <[0%nat := with_l_ratio scenario_A (f <$> [0; 0; 0; 0; 0; 0])]>
         {[ 0%nat := scenario_A ]}).
Proof.
  rewrite (@X4_ratio_without_den_raises_KeyError float b64
             {[ 0%nat := scenario_A ]} 0%nat scenario_A);
    reflexivity.
Defined.

Lemma X5_witness :
  BaseStatsRatio 0%nat {[ 0%nat := frame_zero_den ]}
    = (inl ZeroDivisionError,
       <[0%nat := with_l_ratio frame_zero_den
                    [PrimFloat.nan; PrimFloat.neg_infinity]]>
         {[ 0%nat := frame_zero_den ]}).
Proof.
  destruct (@X5_ratio_zero_denominator_sum float b64
              {[ 0%nat := frame_zero_den ]} 0%nat frame_zero_den
              (f <$> [0; 1]) "A" "B") as [_ Hrun];
    [reflexivity | vm_compute; tauto | reflexivity | reflexivity
    | left; reflexivity |].
  rewrite Hrun. reflexivity.
Defined.

Lemma X6_witness :
  BaseStatsBernoulli 0%nat {[ 0%nat := frame_no_units ]}
    = (inl ZeroDivisionError, {[ 0%nat := frame_no_units ]}).
Proof.
  apply (@X6_bernoulli_zero_units float b64
           {[ 0%nat := frame_no_units ]} 0%nat frame_no_units "A" "B");
    [reflexivity | reflexivity | reflexivity | left; reflexivity].
Defined.

Lemma X7_witness :
  ∃ lr : list float,
    (BaseStatsRatio 0%nat {[ 0%nat := frame_one_variant ]}).2
      = <[0%nat := with_l_ratio frame_one_variant lr]>
          {[ 0%nat := frame_one_variant ]} ∧
    length lr = 2%nat.
Proof.
  destruct (BaseStatsRatio 0%nat {[ 0%nat := frame_one_variant ]})
    as [res h'] eqn:Hrun.
  destruct (@X7_ratio_touches_l_ratio_only float b64
              {[ 0%nat := frame_one_variant ]} h' 0%nat frame_one_variant res)
    as (lr & Hh' & Hlen); [reflexivity | exact Hrun |].
  exists lr. split; [exact Hh' | exact Hlen].
Defined.

Lemma X8_witness :
  ∃ (st : Statistics float) (h1 : heap float),
    BaseStatsRatio 0%nat {[ 0%nat := scenario_C ]} = (inr st, h1) ∧
    BaseStatsRatio 0%nat h1 = (inr st, h1).
Proof.
  apply (@X8_ratio_twice float b64 {[ 0%nat := scenario_C ]} 0%nat
           scenario_C (f <$> [5; 5; 5; 5; 5; 5]) "A" "B");
    [reflexivity | vm_compute; tauto | reflexivity | reflexivity
    | reflexivity | reflexivity].
Defined.

Lemma X9_witness :
  ∃ (st : Statistics float) (h' : heap float),
    aggregator Bernoulli 0%nat {[ 0%nat := scenario_B ]} = (inr st, h') ∧
    n_0 st + n_1 st = 8 ∧
    (length (num_0 st) + length (num_1 st) = 8)%nat.
Proof.
  apply (@X9_two_variants_partition_the_rows float b64 Bernoulli
           {[ 0%nat := scenario_B ]} 0%nat scenario_B "A" "B");
    [reflexivity | vm_compute; tauto | reflexivity
    | split; discriminate].
Defined.

Lemma X10_witness :
  ∃ (st st' : Statistics float) (h1 h1' : heap float),
    aggregator Ratio 0%nat {[ 0%nat := scenario_C ]} = (inr st, h1) ∧
    aggregator UserLevel 0%nat {[ 0%nat := scenario_C ]} = (inr st', h1') ∧
    mean_0 st ≠ mean_0 st' ∧
    MannWhitney rank_test st [] = MannWhitney rank_test st' [].
Proof.
  pose (h := ({[ 0%nat := scenario_C ]} : heap float)).
  pose (returned := λ run : (exn + Statistics float) * heap float,
          match run.1 with inr st => st | inl _ => record_a end).
  pose (run := aggregator Ratio 0%nat h).
  pose (run' := aggregator UserLevel 0%nat h).
  assert (Hrun : run = (inr (returned run), run.2)) by reflexivity.
  assert (Hrun' : run' = (inr (returned run'), run'.2)) by reflexivity.
  exists (returned run), (returned run'), run.2, run'.2.
  split; [exact Hrun|]. split; [exact Hrun'|]. split; [discriminate|].
  exact (@X10_mann_whitney_same_for_all_metrics float b64 Ratio UserLevel
           rank_test h run.2 run'.2 0%nat (returned run) (returned run') []
           Hrun Hrun').
Defined.

Lemma X11_witness :
  TTestFromStats ttest_strict record_a []
    = TTestFromStats ttest_strict record_c [] ∧
  num_0 record_a ≠ num_0 record_c.
Proof.
  split; [|discriminate].
  apply (@X11_ttest_reads_moments_only float b64 ttest_strict
           record_a record_c []); reflexivity.
Defined.

Lemma X12_witness :
  ProportionsZtest ztest record_a [] = ProportionsZtest ztest record_d [] ∧
  var_0 record_a ≠ var_0 record_d ∧ num_0 record_a ≠ num_0 record_d.
Proof.
  split; [|split; discriminate].
  apply (@X12_ztest_reads_sums_and_counts_only float b64 ztest
           record_a record_d []); reflexivity.
Defined.

Lemma X13_witness :
  ∃ (st_r st_u : Statistics float) (h_r : heap float),
    BaseStatsRatio 0%nat {[ 0%nat := frame_den_is_n ]} = (inr st_r, h_r) ∧
    BaseStatsUserLevel 0%nat {[ 0%nat := frame_den_is_n ]}
      = (inr st_u, {[ 0%nat := frame_den_is_n ]}) ∧
    var_0 st_r = var_0 st_u ∧ var_1 st_r = var_1 st_u.
Proof.
  destruct (@X13_ratio_without_linearization_matches_user_level float b64
              {[ 0%nat := frame_den_is_n ]} 0%nat frame_den_is_n
              (f <$> [1; 1; 2]) "A" "B")
    as (st_r & st_u & h_r & Hr & Hu & Hv0 & Hv1 & _);
    [reflexivity | vm_compute; tauto | reflexivity | reflexivity
    | reflexivity | reflexivity | reflexivity |].
  by exists st_r, st_u, h_r.
Defined.

Lemma X14_witness :
  ∃ st : Statistics float,
    BaseStatsUserLevel 0%nat {[ 0%nat := scenario_A ]}
      = (inr st, {[ 0%nat := scenario_A ]}) ∧
    soft_failure
      (ttest_strict 6 1 3 15 1 3) []
      (TTestFromStats ttest_strict st []).
Proof.
  apply (@X14_user_level_then_ttest float b64 ttest_strict
           {[ 0%nat := scenario_A ]} 0%nat scenario_A "A" "B" []);
    reflexivity.
Defined.

Lemma X15_witness :
  ∃ st : Statistics float,
    BaseStatsBernoulli 0%nat {[ 0%nat := scenario_B ]}
      = (inr st, {[ 0%nat := scenario_B ]}) ∧
    mean_0 st = PrimFloat.div 2 4 ∧ mean_1 st = PrimFloat.div 3 4 ∧
    soft_failure (ztest [2%float; 3%float] [4; 4]) []
      (ProportionsZtest ztest st []).
Proof.
  apply (@X15_bernoulli_then_ztest float b64 ztest
           {[ 0%nat := scenario_B ]} 0%nat scenario_B "A" "B" []);
    [reflexivity | reflexivity | reflexivity | discriminate | discriminate].
Defined.

(** * Rows of a third variant *)

Lemma unique_app_prefix (vs ws : list string) :
  ∃ tail, unique (vs ++ ws) = unique vs ++ tail.
Proof.
  induction vs as [|x vs [tail IH]]; simpl; [by exists (unique ws)|].
  exists (filter (λ y, y ≠ x) tail). by rewrite IH, filter_app.
Qed.

Lemma unique_app_lookup (vs ws : list string) (i : nat) (v : string) :
  unique vs !! i = Some v → unique (vs ++ ws) !! i = Some v.
Proof.
  intros Hv. destruct (unique_app_prefix vs ws) as [tail ->].
  by apply lookup_app_l_Some.
Qed.

Lemma select_none {A} (ws : list string) (v : string) (xs : list A) :
  (∀ w, w ∈ ws → w ≠ v) → select (eq_mask ws v) xs = [].
Proof.
  revert xs. induction ws as [|w ws IH]; intros [|x xs] Hws; simpl; try done.
  rewrite bool_decide_eq_false_2 by (apply Hws; left).
  apply IH. intros y Hy. apply Hws. by right.
Qed.

Lemma select_app_other {A} (vs ws : list string) (v : string)
    (xs xs' : list A) :
  length xs = length vs → (∀ w, w ∈ ws → w ≠ v) →
  select (eq_mask (vs ++ ws) v) (xs ++ xs') = select (eq_mask vs v) xs.
Proof.
  revert xs. induction vs as [|u vs IH]; intros [|x xs]; simpl; try done.
  - intros _ Hws. by apply select_none.
  - intros [= Hlen] Hws. case_bool_decide; simpl; by rewrite IH.
Qed.

Section ThirdVariant.
Context {R : Type} `{Float64 R}.

Lemma BaseStatsBernoulli_inv_units (h h' : heap R) (r : loc)
    (d : DataFrame R) (v0 v1 : string) (st : Statistics R) :
  h !! r = Some d →
  unique (col_variant d) !! 0%nat = Some v0 →
  unique (col_variant d) !! 1%nat = Some v1 →
  BaseStatsBernoulli r h = (inr st, h') →
  py_sum_int (select (eq_mask (col_variant d) v0) (col_n d)) ≠ 0 ∧
  py_sum_int (select (eq_mask (col_variant d) v1) (col_n d)) ≠ 0.
Proof.
  intros Hr H0 H1.
  unfold BaseStatsBernoulli, variant_mask, getitem, truediv_int.
  unfold mbind, mret, M_bind, M_ret, bind, ret, raise, read. simpl.
  rewrite Hr. simpl. rewrite H0, H1. simpl. rewrite Hr. simpl.
  rewrite Hr. simpl.
  destruct (py_sum_int (select (eq_mask (col_variant d) v0) (col_n d)) =? 0)
    eqn:E0; [done|].
  destruct (py_sum_int (select (eq_mask (col_variant d) v1) (col_n d)) =? 0)
    eqn:E1; [done|].
  intros _. split; by apply Z.eqb_neq.
Qed.

(** X16: the Bernoulli and user-level aggregators ignore the rows of
    any variant after the first two: a frame extended by rows of other
    variants gives the record of the frame without them, and no error
    for the number of variants. *)
Theorem X16_rows_of_a_third_variant_are_ignored (m : metric)
    (h h' : heap R) (r : loc) (d : DataFrame R) (st : Statistics R)
    (v0 v1 : string) (ws : list string) (nums : list R) (units : list Z) :
  m ≠ Ratio → h !! r = Some d → df_wf d →
  unique (col_variant d) !! 0%nat = Some v0 →
  unique (col_variant d) !! 1%nat = Some v1 →
  (∀ w, w ∈ ws → w ≠ v0 ∧ w ≠ v1) →
  aggregator m r h = (inr st, h') →
  let d' := mkDataFrame (col_variant d ++ ws) (col_num d ++ nums)
              (col_den d) (col_n d ++ units) (col_l_ratio d) in
  aggregator m r (<[r := d']> h) = (inr st, <[r := d']> h).
Proof.
  intros Hm Hr (Hnum & Hn & _) H0 H1 Hws Hrun d'.
  assert (Hr' : <[r := d']> h !! r = Some d') by apply lookup_insert_eq.
  assert (H0' : unique (col_variant d') !! 0%nat = Some v0)
    by (by apply unique_app_lookup).
  assert (H1' : unique (col_variant d') !! 1%nat = Some v1)
    by (by apply unique_app_lookup).
  assert (Hsel : ∀ v, (∀ w, w ∈ ws → w ≠ v) →
            select (eq_mask (col_variant d') v) (col_num d')
              = select (eq_mask (col_variant d) v) (col_num d) ∧
            select (eq_mask (col_variant d') v) (col_n d')
              = select (eq_mask (col_variant d) v) (col_n d)).
  { intros v Hv. split; by apply select_app_other. }
  destruct (Hsel v0) as [Hs0 Hu0]; [intros w Hw; by apply Hws|].
  destruct (Hsel v1) as [Hs1 Hu1]; [intros w Hw; by apply Hws|].
  destruct m; [done| |]; simpl in *.
  - destruct (BaseStatsBernoulli_inv_units h h' r d v0 v1 st Hr H0 H1 Hrun)
      as [Hn0 Hn1].
    rewrite <- Hu0 in Hn0. rewrite <- Hu1 in Hn1.
    destruct (BaseStatsBernoulli_run _ r d' v0 v1 Hr' H0' H1' Hn0 Hn1)
      as [st' Hrun'].
    rewrite Hrun'. do 2 f_equal.
    apply BaseStatsBernoulli_inv in Hrun
      as (e & w0 & w1 & He & Hw0 & Hw1 & _ & ->).
    apply BaseStatsBernoulli_inv in Hrun'
      as (e' & w0' & w1' & He' & Hw0' & Hw1' & _ & ->).
    subst d'. simplify_eq. simpl in *. simplify_eq.
    by rewrite Hs0, Hs1, Hu0, Hu1.
  - destruct (BaseStatsUserLevel_run _ r d' v0 v1 Hr' H0' H1')
      as [st' Hrun'].
    rewrite Hrun'. do 2 f_equal.
    apply BaseStatsUserLevel_inv in Hrun
      as (e & w0 & w1 & He & Hw0 & Hw1 & _ & ->).
    apply BaseStatsUserLevel_inv in Hrun'
      as (e' & w0' & w1' & He' & Hw0' & Hw1' & _ & ->).
    subst d'. simplify_eq. simpl in *. simplify_eq.
    by rewrite Hs0, Hs1, Hu0, Hu1.
Qed.

End ThirdVariant.

Lemma X16_witness :
  ∃ st : Statistics float,
    aggregator UserLevel 0%nat {[ 0%nat := scenario_A ]}
      = (inr st, {[ 0%nat := scenario_A ]}) ∧
    let d' := mkDataFrame
                (col_variant scenario_A ++ ["C"; "D"]%string)
                (col_num scenario_A ++ (f <$> [7; 8]))
                None (col_n scenario_A ++ [1; 1]) None in
    aggregator UserLevel 0%nat (<[0%nat := d']> {[ 0%nat := scenario_A ]})
      = (inr st, <[0%nat := d']> {[ 0%nat := scenario_A ]}) ∧
    mean_0 st = 6%float ∧ n_0 st + n_1 st = 6.
Proof.
  pose (h := ({[ 0%nat := scenario_A ]} : heap float)).
  pose (run := aggregator UserLevel 0%nat h).
  pose (st := match run.1 with inr st => st | inl _ => record_a end).
  assert (Hrun : run = (inr st, h)) by reflexivity.
  exists st. split; [exact Hrun|]. split; [|split; reflexivity].
  apply (@X16_rows_of_a_third_variant_are_ignored float b64 UserLevel
           h h 0%nat scenario_A st "A" "B" ["C"; "D"]%string
           (f <$> [7; 8]) [1; 1]);
    [discriminate | reflexivity | vm_compute; tauto | reflexivity
    | reflexivity | | exact Hrun].
  intros w Hw. apply list_elem_of_In in Hw. simpl in Hw.
  destruct Hw as [<-|[<-|[]]]; split; discriminate.
Defined.
